(** * Image objects of the Intel XGL driver: a shallow embedding of
      [icd/intel/img.c]

    The file follows the C source function by function.  Unsigned C integers
    are natural numbers ([N]) with the wrap-around of their width written
    out; the heap is a finite set of live allocations; the calls the driver
    makes into the rest of the system (logging, [close], frees) are recorded
    in an event log, in program order. *)

From Stdlib Require Import NArith ZArith List Bool Lia String.
From Stdlib.Strings Require Import Byte.
From stdpp Require Import gmap.

Local Open Scope N_scope.

(** ** Machine arithmetic *)

(** [unsigned] is 32 bits wide (the source relies on it: [1u << 31]) and
    [size_t] is 64 bits wide (the LP64 targets of the driver). *)
Definition UINT_BITS : N := 32.
Definition SIZE_BITS : N := 64.

Definition wrap (bits v : N) : N := v mod 2 ^ bits.

(** [a * b] on two [unsigned] operands. *)
Definition umul (a b : N) : N := wrap UINT_BITS (a * b).

(** [a + b] on [size_t] operands (an [unsigned] operand is converted first,
    which keeps its value). *)
Definition size_add (a b : N) : N := wrap SIZE_BITS (a + b).

(** [a / b] on [size_t] operands: no result when the divisor is zero. *)
Definition size_div (a b : N) : option N :=
  if b =? 0 then None else Some (a / b).

(** [static const size_t intel_max_resource_size = 1u << 31;] *)
Definition intel_max_resource_size : N := wrap UINT_BITS (N.shiftl 1 31).

(** Modelled from the spec: [u_align] (a helper of the driver's utility
    header, not in [img.c]) is the spec's [align_up(value, alignment)]: the
    value rounded up to the next multiple of the alignment. *)
Definition u_align (val alignment : N) : N :=
  (val + alignment - 1) / alignment * alignment.

(** ** API types *)

Inductive XGL_RESULT : Type :=
| XGL_SUCCESS
| XGL_ERROR_UNAVAILABLE
| XGL_ERROR_OUT_OF_MEMORY
| XGL_ERROR_INVALID_MEMORY_SIZE
| XGL_ERROR_INVALID_VALUE
| XGL_ERROR_other (code : Z).

Inductive XGL_IMAGE_TILING : Type :=
| XGL_LINEAR_TILING
| XGL_OPTIMAL_TILING.

Inductive XGL_IMAGE_FORMAT_CLASS : Type :=
| XGL_IMAGE_FORMAT_CLASS_LINEAR
| XGL_IMAGE_FORMAT_CLASS_other (code : N).

Inductive XGL_MEMORY_TYPE : Type :=
| XGL_MEMORY_TYPE_BUFFER
| XGL_MEMORY_TYPE_IMAGE
| XGL_MEMORY_TYPE_other (code : N).

Record XGL_EXTENT3D : Type := {
  width : Z;
  height : Z;
  depth : Z
}.

(** The fields of [XGL_IMAGE_CREATE_INFO]; [imageType], [format] and
    [usage] are carried as their numeric codes. *)
Record XGL_IMAGE_CREATE_INFO : Type := {
  imageType : N;
  format : N;
  extent : XGL_EXTENT3D;
  mipLevels : N;
  arraySize : N;
  samples : N;
  tiling : XGL_IMAGE_TILING;
  usage : N
}.

Definition set_format (f : N) (info : XGL_IMAGE_CREATE_INFO) : XGL_IMAGE_CREATE_INFO :=
  {| imageType := imageType info; format := f; extent := extent info;
     mipLevels := mipLevels info; arraySize := arraySize info;
     samples := samples info; tiling := tiling info; usage := usage info |}.

Record XGL_IMAGE_SUBRESOURCE : Type := {
  mipLevel : N;
  arraySlice : N
}.

Record XGL_SUBRESOURCE_LAYOUT : Type := {
  sl_offset : N;
  sl_size : N;
  sl_rowPitch : N;
  sl_depthPitch : N
}.

Inductive XGL_SUBRESOURCE_INFO_TYPE : Type :=
| XGL_INFO_TYPE_SUBRESOURCE_LAYOUT
| XGL_SUBRESOURCE_INFO_TYPE_other (code : Z).

Record XGL_MEMORY_REQUIREMENTS : Type := {
  mr_size : N;
  mr_alignment : N;
  mr_memType : XGL_MEMORY_TYPE
}.

Record XGL_IMAGE_MEMORY_REQUIREMENTS : Type := {
  ir_usage : N;
  ir_formatClass : XGL_IMAGE_FORMAT_CLASS;
  ir_samples : N
}.

Record XGL_BUFFER_MEMORY_REQUIREMENTS : Type := {
  br_usage : N
}.

(** The [type] argument of [get_info]. *)
Inductive XGL_INFO_TYPE : Type :=
| XGL_INFO_TYPE_MEMORY_REQUIREMENTS
| XGL_INFO_TYPE_IMAGE_MEMORY_REQUIREMENTS
| XGL_INFO_TYPE_BUFFER_MEMORY_REQUIREMENTS
| XGL_INFO_TYPE_other (code : Z).

(** What the [void *data] of [get_info] points to; [None] for that argument
    is the null pointer. *)
Inductive info_data : Type :=
| data_MEMORY_REQUIREMENTS (r : XGL_MEMORY_REQUIREMENTS)
| data_IMAGE_MEMORY_REQUIREMENTS (r : XGL_IMAGE_MEMORY_REQUIREMENTS)
| data_BUFFER_MEMORY_REQUIREMENTS (r : XGL_BUFFER_MEMORY_REQUIREMENTS)
| data_raw (bytes : list byte).

(** ** Driver types *)

(** Modelled from the spec: the auxiliary-region descriptor of a layout has
    the kinds none, compression-aux and fast-clear-aux; only
    [INTEL_LAYOUT_AUX_NONE] is named in [img.c]. *)
Inductive intel_layout_aux_type : Type :=
| INTEL_LAYOUT_AUX_NONE
| INTEL_LAYOUT_AUX_COMPRESSION
| INTEL_LAYOUT_AUX_FAST_CLEAR.

(** [struct intel_layout]: the fields [img.c] reads, all [unsigned] but
    the first two, and in [slices] the remaining state of the structure,
    which only the layout provider interprets. *)
Record intel_layout : Type := {
  aux : intel_layout_aux_type;
  separate_stencil : bool;
  bo_stride : N;
  bo_height : N;
  aux_stride : N;
  aux_height : N;
  slices : list N
}.

Record intel_dev : Type := {
  dev_handle : N
}.

Inductive destroy_hook : Type := hook_img_destroy.
Inductive get_info_hook : Type := hook_img_get_info.

(** [struct intel_img].  Pointers are [option]s of allocation names;
    [s8_layout] carries the pointed-to layout with the pointer.
    [clear_color] is the 16 bytes of a [float[4]], [clear_depth] the bit
    pattern of a [float]. *)
Record intel_img : Type := {
  obj_handle : positive;
  obj_destroy : option destroy_hook;
  obj_get_info : option get_info_hook;
  obj_mem : option positive;
  type : N;
  img_depth : Z;
  mip_levels : N;
  array_size : N;
  img_usage : N;
  format_class : XGL_IMAGE_FORMAT_CLASS;
  img_samples : N;
  layout : intel_layout;
  s8_layout : option (positive * intel_layout);
  total_size : N;
  aux_offset : N;
  s8_offset : N;
  clear_color : list byte;
  clear_depth : N;
  x11_prime_fd : Z
}.

Definition set_total_size (v : N) (img : intel_img) : intel_img :=
  {| obj_handle := obj_handle img; obj_destroy := obj_destroy img;
     obj_get_info := obj_get_info img; obj_mem := obj_mem img;
     type := type img; img_depth := img_depth img;
     mip_levels := mip_levels img; array_size := array_size img;
     img_usage := img_usage img; format_class := format_class img;
     img_samples := img_samples img; layout := layout img;
     s8_layout := s8_layout img; total_size := v;
     aux_offset := aux_offset img; s8_offset := s8_offset img;
     clear_color := clear_color img; clear_depth := clear_depth img;
     x11_prime_fd := x11_prime_fd img |}.

Definition set_aux_offset (v : N) (img : intel_img) : intel_img :=
  {| obj_handle := obj_handle img; obj_destroy := obj_destroy img;
     obj_get_info := obj_get_info img; obj_mem := obj_mem img;
     type := type img; img_depth := img_depth img;
     mip_levels := mip_levels img; array_size := array_size img;
     img_usage := img_usage img; format_class := format_class img;
     img_samples := img_samples img; layout := layout img;
     s8_layout := s8_layout img; total_size := total_size img;
     aux_offset := v; s8_offset := s8_offset img;
     clear_color := clear_color img; clear_depth := clear_depth img;
     x11_prime_fd := x11_prime_fd img |}.

Definition set_s8_offset (v : N) (img : intel_img) : intel_img :=
  {| obj_handle := obj_handle img; obj_destroy := obj_destroy img;
     obj_get_info := obj_get_info img; obj_mem := obj_mem img;
     type := type img; img_depth := img_depth img;
     mip_levels := mip_levels img; array_size := array_size img;
     img_usage := img_usage img; format_class := format_class img;
     img_samples := img_samples img; layout := layout img;
     s8_layout := s8_layout img; total_size := total_size img;
     aux_offset := aux_offset img; s8_offset := v;
     clear_color := clear_color img; clear_depth := clear_depth img;
     x11_prime_fd := x11_prime_fd img |}.

Definition set_s8_layout (v : option (positive * intel_layout))
    (img : intel_img) : intel_img :=
  {| obj_handle := obj_handle img; obj_destroy := obj_destroy img;
     obj_get_info := obj_get_info img; obj_mem := obj_mem img;
     type := type img; img_depth := img_depth img;
     mip_levels := mip_levels img; array_size := array_size img;
     img_usage := img_usage img; format_class := format_class img;
     img_samples := img_samples img; layout := layout img;
     s8_layout := v; total_size := total_size img;
     aux_offset := aux_offset img; s8_offset := s8_offset img;
     clear_color := clear_color img; clear_depth := clear_depth img;
     x11_prime_fd := x11_prime_fd img |}.

Definition set_hooks (d : option destroy_hook) (g : option get_info_hook)
    (img : intel_img) : intel_img :=
  {| obj_handle := obj_handle img; obj_destroy := d;
     obj_get_info := g; obj_mem := obj_mem img;
     type := type img; img_depth := img_depth img;
     mip_levels := mip_levels img; array_size := array_size img;
     img_usage := img_usage img; format_class := format_class img;
     img_samples := img_samples img; layout := layout img;
     s8_layout := s8_layout img; total_size := total_size img;
     aux_offset := aux_offset img; s8_offset := s8_offset img;
     clear_color := clear_color img; clear_depth := clear_depth img;
     x11_prime_fd := x11_prime_fd img |}.

Definition set_x11_prime_fd (v : Z) (img : intel_img) : intel_img :=
  {| obj_handle := obj_handle img; obj_destroy := obj_destroy img;
     obj_get_info := obj_get_info img; obj_mem := obj_mem img;
     type := type img; img_depth := img_depth img;
     mip_levels := mip_levels img; array_size := array_size img;
     img_usage := img_usage img; format_class := format_class img;
     img_samples := img_samples img; layout := layout img;
     s8_layout := s8_layout img; total_size := total_size img;
     aux_offset := aux_offset img; s8_offset := s8_offset img;
     clear_color := clear_color img; clear_depth := clear_depth img;
     x11_prime_fd := v |}.

Definition set_clear_color (v : list byte) (img : intel_img) : intel_img :=
  {| obj_handle := obj_handle img; obj_destroy := obj_destroy img;
     obj_get_info := obj_get_info img; obj_mem := obj_mem img;
     type := type img; img_depth := img_depth img;
     mip_levels := mip_levels img; array_size := array_size img;
     img_usage := img_usage img; format_class := format_class img;
     img_samples := img_samples img; layout := layout img;
     s8_layout := s8_layout img; total_size := total_size img;
     aux_offset := aux_offset img; s8_offset := s8_offset img;
     clear_color := v; clear_depth := clear_depth img;
     x11_prime_fd := x11_prime_fd img |}.

Definition set_clear_depth (v : N) (img : intel_img) : intel_img :=
  {| obj_handle := obj_handle img; obj_destroy := obj_destroy img;
     obj_get_info := obj_get_info img; obj_mem := obj_mem img;
     type := type img; img_depth := img_depth img;
     mip_levels := mip_levels img; array_size := array_size img;
     img_usage := img_usage img; format_class := format_class img;
     img_samples := img_samples img; layout := layout img;
     s8_layout := s8_layout img; total_size := total_size img;
     aux_offset := aux_offset img; s8_offset := s8_offset img;
     clear_color := clear_color img; clear_depth := v;
     x11_prime_fd := x11_prime_fd img |}.

(** ** The system around the driver *)

(** The heap: the live allocations and the number of allocations that can
    still be served. *)
Record heap : Type := {
  live : gset positive;
  avail : nat
}.

(** What the driver does to the rest of the system, in program order. *)
Inductive event : Type :=
| EvLog (msg : string)
| EvClose (fd : Z)
| EvMemFree (mem : option positive)
| EvFree (p : positive)
| EvBaseDestroy (handle : positive).

Record sys : Type := {
  sys_heap : heap;
  sys_log : list event
}.

Definition emit (e : event) (s : sys) : sys :=
  {| sys_heap := sys_heap s; sys_log := sys_log s ++ [e] |}.

Definition heap_alloc (s : sys) : option (positive * sys) :=
  match avail (sys_heap s) with
  | O => None
  | S n =>
      let p := fresh (live (sys_heap s)) in
      Some (p, {| sys_heap := {| live := {[p]} ∪ live (sys_heap s); avail := n |};
                  sys_log := sys_log s |})
  end.

Definition heap_free (p : positive) (s : sys) : sys :=
  {| sys_heap := {| live := live (sys_heap s) ∖ {[p]};
                    avail := S (avail (sys_heap s)) |};
     sys_log := sys_log s |}.

(** Modelled from the spec: the base-object infrastructure
    ([intel_base_create], [intel_base_destroy], [intel_alloc], [intel_free];
    not in [img.c]) allocates and releases one heap block per call;
    allocation returns null when the heap is exhausted, and a new base object
    is zero-filled (fast-clear metadata defaults to zero at creation). *)
Definition intel_base_create (s : sys) : option (positive * sys) := heap_alloc s.

Definition intel_alloc (s : sys) : option (positive * sys) := heap_alloc s.

Definition intel_free (p : positive) (s : sys) : sys :=
  heap_free p (emit (EvFree p) s).

Definition intel_base_destroy (handle : positive) (s : sys) : sys :=
  heap_free handle (emit (EvBaseDestroy handle) s).

(** [intel_dev_log], [close] and [intel_mem_free] are outside [img.c]:
    their calls are recorded. *)
Definition intel_dev_log (msg : string) (s : sys) : sys := emit (EvLog msg) s.
Definition close (fd : Z) (s : sys) : sys := emit (EvClose fd) s.
Definition intel_mem_free (mem : option positive) (s : sys) : sys :=
  emit (EvMemFree mem) s.

(** The collaborators of [img.c] that live elsewhere in the driver, taken
    as parameters: the layout provider, the format classification, the
    constants of the API headers, the base object's own info query, and the
    build switch [ENABLE_WSI_X11]. *)
Class Collaborators : Type := {
  ENABLE_WSI_X11 : bool;
  XGL_FMT_S8_UINT : N;
  icd_format_get_class : N -> XGL_IMAGE_FORMAT_CLASS;
  icd_format_is_ds : N -> bool;
  intel_layout_init : intel_dev -> XGL_IMAGE_CREATE_INFO -> bool -> intel_layout;
  intel_layout_get_slice_pos : intel_layout -> N -> N -> N * N;
  intel_layout_pos_to_mem : intel_layout -> N -> N -> N * N;
  intel_layout_mem_to_linear : intel_layout -> N -> N -> N;
  intel_layout_get_slice_size : intel_layout -> N -> N;
  intel_layout_get_slice_stride : intel_layout -> N -> N;
  sizeof_XGL_MEMORY_REQUIREMENTS : N;
  sizeof_XGL_IMAGE_MEMORY_REQUIREMENTS : N;
  sizeof_XGL_BUFFER_MEMORY_REQUIREMENTS : N;
  sizeof_XGL_SUBRESOURCE_LAYOUT : N;
  intel_base_get_info :
    intel_img -> XGL_INFO_TYPE -> N -> option info_data ->
    XGL_RESULT * N * option info_data
}.

(** How a call of [intel_img_create] ends: it returns a status, with the
    cell [*img_ret] and the system as it leaves them, or it stops, in the
    system state reached, at the division of line 131 or at the assertion
    of line 158. *)
Inductive trap : Type :=
| DivisionByZero
| AssertionFailed.

Inductive outcome : Type :=
| Returned (ret : XGL_RESULT) (img_ret : option intel_img) (s : sys)
| Trapped (t : trap) (s : sys).

Section Img.
Context `{Collaborators}.

(** ** [intel_img_destroy] *)
Definition intel_img_destroy (img : intel_img) (s : sys) : sys :=
  let s :=
    if ENABLE_WSI_X11 then
      if (0 <=? x11_prime_fd img)%Z then
        intel_mem_free (obj_mem img) (close (x11_prime_fd img) s)
      else s
    else s in
  let s :=
    match s8_layout img with
    | Some (p, _) => intel_free p s
    | None => s
    end in
  intel_base_destroy (obj_handle img) s.

(** [static void img_destroy(struct intel_obj *obj)] *)
Definition img_destroy (img : intel_img) (s : sys) : sys :=
  intel_img_destroy img s.

(** ** [intel_img_create] *)

(** Lines 117-129: the fields set from the description on the zero-filled
    object, and the primary layout. *)
Definition img_init (handle : positive) (dev : intel_dev)
    (info : XGL_IMAGE_CREATE_INFO) (scanout : bool) : intel_img :=
  {| obj_handle := handle; obj_destroy := None; obj_get_info := None;
     obj_mem := None;
     type := imageType info;
     img_depth := depth (extent info);
     mip_levels := mipLevels info;
     array_size := arraySize info;
     img_usage := usage info;
     format_class :=
       match tiling info with
       | XGL_LINEAR_TILING => XGL_IMAGE_FORMAT_CLASS_LINEAR
       | _ => icd_format_get_class (format info)
       end;
     img_samples := samples info;
     layout := intel_layout_init dev info scanout;
     s8_layout := None;
     total_size := 0; aux_offset := 0; s8_offset := 0;
     clear_color := repeat x00 16; clear_depth := 0;
     x11_prime_fd := 0 |}.

(** Lines 140-144: the auxiliary region. *)
Definition img_pack_aux (img : intel_img) : intel_img :=
  match aux (layout img) with
  | INTEL_LAYOUT_AUX_NONE => img
  | _ =>
      let img := set_aux_offset (u_align (total_size img) 4096) img in
      set_total_size
        (size_add (aux_offset img)
           (umul (aux_stride (layout img)) (aux_height (layout img)))) img
  end.

(** Lines 160-164: the separate stencil layout, in the storage [p]. *)
Definition img_pack_s8 (p : positive) (s8 : intel_layout) (img : intel_img) : intel_img :=
  let img := set_s8_layout (Some (p, s8)) img in
  let img := set_s8_offset (u_align (total_size img) 4096) img in
  set_total_size
    (size_add (s8_offset img) (umul (bo_stride s8) (bo_height s8))) img.

(** Lines 167-176: the hooks, the hand-off descriptor, and the store to
    [*img_ret]. *)
Definition img_finish (img : intel_img) : intel_img :=
  let img := set_hooks (Some hook_img_destroy) (Some hook_img_get_info) img in
  if ENABLE_WSI_X11 then set_x11_prime_fd (-1) img else img.

Definition img_publish (img : intel_img) (s : sys) : outcome :=
  Returned XGL_SUCCESS (Some (img_finish img)) s.

Definition intel_img_create (dev : intel_dev) (info : XGL_IMAGE_CREATE_INFO)
    (scanout : bool) (img_ret : option intel_img) (s : sys) : outcome :=
  match intel_base_create s with
  | None => Returned XGL_ERROR_OUT_OF_MEMORY img_ret s
  | Some (handle, s) =>
      let img := img_init handle dev info scanout in
      match size_div intel_max_resource_size (bo_height (layout img)) with
      | None => Trapped DivisionByZero s
      | Some limit =>
          if limit <? bo_stride (layout img) then
            let s := intel_dev_log "image too big" s in
            let s := intel_img_destroy img s in
            Returned XGL_ERROR_INVALID_MEMORY_SIZE img_ret s
          else
            let img :=
              set_total_size
                (umul (bo_stride (layout img)) (bo_height (layout img))) img in
            let img := img_pack_aux img in
            if separate_stencil (layout img) then
              match intel_alloc s with
              | None =>
                  let img := set_s8_layout None img in
                  let s := intel_img_destroy img s in
                  Returned XGL_ERROR_OUT_OF_MEMORY img_ret s
              | Some (p, s) =>
                  let s8_info := set_format XGL_FMT_S8_UINT info in
                  if icd_format_is_ds (format info) then
                    let s8 := intel_layout_init dev s8_info scanout in
                    img_publish (img_pack_s8 p s8 img) s
                  else Trapped AssertionFailed s
              end
            else img_publish img s
      end
  end.

(** The image before the stencil step: primary size and auxiliary region. *)
Definition img_packed (handle : positive) (dev : intel_dev)
    (info : XGL_IMAGE_CREATE_INFO) (scanout : bool) : intel_img :=
  let img := img_init handle dev info scanout in
  img_pack_aux
    (set_total_size (umul (bo_stride (layout img)) (bo_height (layout img))) img).

(** The image a successful call stores is fully populated from the
    description: the copied fields, the classification, the primary layout,
    the stencil layout exactly when the primary layout asks for one, the
    hooks, the hand-off descriptor, and zero fast-clear metadata. *)
Definition populated (dev : intel_dev) (info : XGL_IMAGE_CREATE_INFO)
    (scanout : bool) (img : intel_img) : Prop :=
  type img = imageType info /\
  img_depth img = depth (extent info) /\
  mip_levels img = mipLevels info /\
  array_size img = arraySize info /\
  img_usage img = usage info /\
  format_class img =
    match tiling info with
    | XGL_LINEAR_TILING => XGL_IMAGE_FORMAT_CLASS_LINEAR
    | _ => icd_format_get_class (format info)
    end /\
  img_samples img = samples info /\
  layout img = intel_layout_init dev info scanout /\
  (if separate_stencil (layout img)
   then exists p,
     s8_layout img =
       Some (p, intel_layout_init dev (set_format XGL_FMT_S8_UINT info) scanout)
   else s8_layout img = None) /\
  obj_destroy img = Some hook_img_destroy /\
  obj_get_info img = Some hook_img_get_info /\
  (if ENABLE_WSI_X11 then x11_prime_fd img = (-1)%Z else True) /\
  clear_color img = repeat x00 16 /\
  clear_depth img = 0.

(** [xglOpenPeerImage] *)
Definition xglOpenPeerImage : XGL_RESULT := XGL_ERROR_UNAVAILABLE.

(** [xglCreateImage] *)
Definition xglCreateImage (device : intel_dev) (pCreateInfo : XGL_IMAGE_CREATE_INFO)
    (pImage : option intel_img) (s : sys) : outcome :=
  intel_img_create device pCreateInfo false pImage s.

(** ** [img_get_info]

    [size] is the cell [*size] on entry; the result carries the status, the
    cell on exit and what [data] points to on exit. *)
Definition img_get_info (img : intel_img) (type : XGL_INFO_TYPE) (size : N)
    (data : option info_data) : XGL_RESULT * N * option info_data :=
  let ret := XGL_SUCCESS in
  match type with
  | XGL_INFO_TYPE_MEMORY_REQUIREMENTS =>
      let size := sizeof_XGL_MEMORY_REQUIREMENTS in
      match data with
      | None => (ret, size, None)
      | Some _ =>
          let mem_req :=
            {| mr_size := total_size img;
               mr_alignment := 4096;
               mr_memType :=
                 match format_class img with
                 | XGL_IMAGE_FORMAT_CLASS_LINEAR => XGL_MEMORY_TYPE_BUFFER
                 | _ => XGL_MEMORY_TYPE_IMAGE
                 end |} in
          (ret, size, Some (data_MEMORY_REQUIREMENTS mem_req))
      end
  | XGL_INFO_TYPE_IMAGE_MEMORY_REQUIREMENTS =>
      let size := sizeof_XGL_IMAGE_MEMORY_REQUIREMENTS in
      match data with
      | None => (ret, size, None)
      | Some _ =>
          let img_req :=
            {| ir_usage := img_usage img;
               ir_formatClass := format_class img;
               ir_samples := img_samples img |} in
          (ret, size, Some (data_IMAGE_MEMORY_REQUIREMENTS img_req))
      end
  | XGL_INFO_TYPE_BUFFER_MEMORY_REQUIREMENTS =>
      let size := sizeof_XGL_BUFFER_MEMORY_REQUIREMENTS in
      match data with
      | None => (ret, size, None)
      | Some _ =>
          (ret, size,
           Some (data_BUFFER_MEMORY_REQUIREMENTS {| br_usage := img_usage img |}))
      end
  | XGL_INFO_TYPE_other _ => intel_base_get_info img type size data
  end.

(** ** [xglGetImageSubresourceInfo]

    The call can reach the image, the cell [*pDataSize] and the buffer
    [pData] ([None]: null); the result carries all three as the call leaves
    them. *)
Definition xglGetImageSubresourceInfo (img : intel_img)
    (pSubresource : XGL_IMAGE_SUBRESOURCE) (infoType : XGL_SUBRESOURCE_INFO_TYPE)
    (pDataSize : N) (pData : option XGL_SUBRESOURCE_LAYOUT)
    : XGL_RESULT * intel_img * N * option XGL_SUBRESOURCE_LAYOUT :=
  let ret := XGL_SUCCESS in
  match infoType with
  | XGL_INFO_TYPE_SUBRESOURCE_LAYOUT =>
      let '(x, y) :=
        intel_layout_get_slice_pos (layout img)
          (mipLevel pSubresource) (arraySlice pSubresource) in
      let '(x, y) := intel_layout_pos_to_mem (layout img) x y in
      let pDataSize := sizeof_XGL_SUBRESOURCE_LAYOUT in
      match pData with
      | None => (ret, img, pDataSize, None)
      | Some _ =>
          let out :=
            {| sl_offset := intel_layout_mem_to_linear (layout img) x y;
               sl_size :=
                 intel_layout_get_slice_size (layout img) (mipLevel pSubresource);
               sl_rowPitch := bo_stride (layout img);
               sl_depthPitch :=
                 intel_layout_get_slice_stride (layout img) (mipLevel pSubresource) |} in
          (ret, img, pDataSize, Some out)
      end
  | XGL_SUBRESOURCE_INFO_TYPE_other _ =>
      (XGL_ERROR_INVALID_VALUE, img, pDataSize, pData)
  end.

(** The linear offset of a slice: its position in the primary layout, mapped
    to memory and then to a byte offset.  It is a function of the primary
    layout alone: no region base is added to it. *)
Definition slice_offset (l : intel_layout) (sub : XGL_IMAGE_SUBRESOURCE) : N :=
  let pos := intel_layout_get_slice_pos l (mipLevel sub) (arraySlice sub) in
  let mem := intel_layout_pos_to_mem l (fst pos) (snd pos) in
  intel_layout_mem_to_linear l (fst mem) (snd mem).

End Img.

(** ** Fast-clear metadata *)

(** Memory as the setters see it: a byte at every address. *)
Definition memory : Type := N -> byte.

Definition byte_of_N (n : N) : byte :=
  match Byte.of_N (n mod 256) with
  | Some b => b
  | None => x00
  end.

(** The [len] bytes of [n], least significant first (the byte order of the
    x86 targets). *)
Fixpoint le_bytes (len : nat) (n : N) : list byte :=
  match len with
  | O => []
  | S k => byte_of_N n :: le_bytes k (n / 256)
  end.

Fixpoint load (m : memory) (addr : N) (len : nat) : list byte :=
  match len with
  | O => []
  | S k => m addr :: load m (addr + 1) k
  end.

(** The size of a pointer, and [sizeof(float) * 4]. *)
Definition POINTER_SIZE : nat := 8.
Definition sizeof_float_4 : nat := 16.

(** [xglSetFastClearColor].  The parameter [const float color[4]] is a
    pointer, held in the callee's frame at [addr_of_color]; the source of the
    [memcpy] is [&color], the parameter itself: the [POINTER_SIZE] bytes of
    the pointer, followed by whatever the frame holds after them. *)
Definition xglSetFastClearColor (m : memory) (img : intel_img)
    (color : N) (addr_of_color : N) : XGL_RESULT * intel_img :=
  let src :=
    le_bytes POINTER_SIZE color ++
    load m (addr_of_color + N.of_nat POINTER_SIZE) (sizeof_float_4 - POINTER_SIZE) in
  (XGL_SUCCESS, set_clear_color (firstn sizeof_float_4 src) img).

(** [xglSetFastClearDepth] *)
Definition xglSetFastClearDepth (img : intel_img) (depth : N) : XGL_RESULT * intel_img :=
  (XGL_SUCCESS, set_clear_depth depth img).

(** ** Observations on a call *)

(** The status a call returns, if it returns. *)
Definition status (o : outcome) : option XGL_RESULT :=
  match o with
  | Returned ret _ _ => Some ret
  | Trapped _ _ => None
  end.

(** The heap blocks an image owns: its base object and its stencil layout. *)
Definition img_blocks (img : intel_img) : gset positive :=
  {[obj_handle img]} ∪
  match s8_layout img with
  | Some (p, _) => {[p]}
  | None => ∅
  end.

(** A product of two [unsigned] values that [unsigned] can hold. *)
Definition fits_unsigned (v : N) : Prop := v < 2 ^ UINT_BITS.

(** *** The regions of an image, in exact arithmetic *)

Definition has_aux (img : intel_img) : bool :=
  match aux (layout img) with
  | INTEL_LAYOUT_AUX_NONE => false
  | _ => true
  end.

Definition has_s8 (img : intel_img) : bool :=
  match s8_layout img with
  | Some _ => true
  | None => false
  end.

Definition primary_size (img : intel_img) : N :=
  bo_stride (layout img) * bo_height (layout img).

Definition aux_size (img : intel_img) : N :=
  aux_stride (layout img) * aux_height (layout img).

Definition s8_size (img : intel_img) : N :=
  match s8_layout img with
  | Some (_, s8) => bo_stride s8 * bo_height s8
  | None => 0
  end.

(** The sizes of the auxiliary and stencil regions that are present fit the
    [unsigned] products the driver computes them with. *)
Definition regions_representable (img : intel_img) : Prop :=
  (has_aux img = true -> fits_unsigned (aux_size img)) /\
  (has_s8 img = true -> fits_unsigned (s8_size img)).

(** The packing as the spec words it: the primary size; then, with an
    auxiliary region of [aux_sz] bytes, its 4096-aligned base plus its size;
    then, with a stencil plane of [s8_sz] bytes, its 4096-aligned base plus
    its size. *)
Definition packed_after_aux (img : intel_img) (aux_sz : N) : N :=
  if has_aux img then u_align (primary_size img) 4096 + aux_sz
  else primary_size img.

Definition packed_total (img : intel_img) (aux_sz s8_sz : N) : N :=
  if has_s8 img then u_align (packed_after_aux img aux_sz) 4096 + s8_sz
  else packed_after_aux img aux_sz.

(** A region is a base offset and a byte size; it covers the bytes
    [base .. base + size - 1] of the allocation. *)
Record region : Type := {
  base : N;
  size : N
}.

Definition in_region (r : region) (b : N) : Prop := base r <= b < base r + size r.

Definition disjoint (r1 r2 : region) : Prop :=
  forall b, ~ (in_region r1 b /\ in_region r2 b).

(** The regions of an image whose auxiliary region and stencil plane, where
    present, have [aux_sz] and [s8_sz] bytes. *)
Definition img_regions (img : intel_img) (aux_sz s8_sz : N) : list region :=
  {| base := 0; size := primary_size img |} ::
  (if has_aux img then [{| base := aux_offset img; size := aux_sz |}] else []) ++
  (if has_s8 img then [{| base := s8_offset img; size := s8_sz |}] else []).

(** The sizes as the driver computes them, with [unsigned] products. *)
Definition aux_size_computed (img : intel_img) : N :=
  umul (aux_stride (layout img)) (aux_height (layout img)).

Definition s8_size_computed (img : intel_img) : N :=
  match s8_layout img with
  | Some (_, s8) => umul (bo_stride s8) (bo_height s8)
  | None => 0
  end.

(** ** A concrete set of collaborators

    A layout provider for linear surfaces, used to run the driver on
    concrete descriptions: four bytes per pixel (one for format 8, the
    stencil format), one row per pixel row, an auxiliary region of one byte
    per pixel for multisampled images, and a separate stencil plane for
    format 7, the only depth-stencil format. *)
Definition sample_layout_init (dev : intel_dev) (info : XGL_IMAGE_CREATE_INFO)
    (scanout : bool) : intel_layout :=
  let w := Z.to_N (width (extent info)) in
  let h := Z.to_N (height (extent info)) in
  let bpp := if format info =? 8 then 1 else 4 in
  {| aux := if 1 <? samples info then INTEL_LAYOUT_AUX_FAST_CLEAR
            else INTEL_LAYOUT_AUX_NONE;
     separate_stencil := format info =? 7;
     bo_stride := wrap UINT_BITS (w * bpp);
     bo_height := wrap UINT_BITS (h * arraySize info);
     aux_stride := wrap UINT_BITS w;
     aux_height := wrap UINT_BITS h;
     slices := [w * bpp; h] |}.

Definition sample_collaborators (wsi : bool) : Collaborators :=
  {| ENABLE_WSI_X11 := wsi;
     XGL_FMT_S8_UINT := 8;
     icd_format_get_class := fun f => XGL_IMAGE_FORMAT_CLASS_other f;
     icd_format_is_ds := fun f => f =? 7;
     intel_layout_init := sample_layout_init;
     intel_layout_get_slice_pos := fun l level slice => (0, slice * nth 1 (slices l) 0);
     intel_layout_pos_to_mem := fun l x y => (x, y);
     intel_layout_mem_to_linear := fun l x y => y * bo_stride l + x;
     intel_layout_get_slice_size := fun l level => bo_stride l * nth 1 (slices l) 0;
     intel_layout_get_slice_stride := fun l level => bo_stride l * nth 1 (slices l) 0;
     sizeof_XGL_MEMORY_REQUIREMENTS := 24;
     sizeof_XGL_IMAGE_MEMORY_REQUIREMENTS := 12;
     sizeof_XGL_BUFFER_MEMORY_REQUIREMENTS := 4;
     sizeof_XGL_SUBRESOURCE_LAYOUT := 32;
     intel_base_get_info := fun img type size data => (XGL_ERROR_INVALID_VALUE, size, data) |}.

(** The same collaborators with a format classification that knows no
    depth-stencil format, although the layout provider asks for a separate
    stencil plane for format 7. *)
Definition no_ds_collaborators : Collaborators :=
  {| ENABLE_WSI_X11 := false;
     XGL_FMT_S8_UINT := 8;
     icd_format_get_class := fun f => XGL_IMAGE_FORMAT_CLASS_other f;
     icd_format_is_ds := fun f => false;
     intel_layout_init := sample_layout_init;
     intel_layout_get_slice_pos := fun l level slice => (0, slice * nth 1 (slices l) 0);
     intel_layout_pos_to_mem := fun l x y => (x, y);
     intel_layout_mem_to_linear := fun l x y => y * bo_stride l + x;
     intel_layout_get_slice_size := fun l level => bo_stride l * nth 1 (slices l) 0;
     intel_layout_get_slice_stride := fun l level => bo_stride l * nth 1 (slices l) 0;
     sizeof_XGL_MEMORY_REQUIREMENTS := 24;
     sizeof_XGL_IMAGE_MEMORY_REQUIREMENTS := 12;
     sizeof_XGL_BUFFER_MEMORY_REQUIREMENTS := 4;
     sizeof_XGL_SUBRESOURCE_LAYOUT := 32;
     intel_base_get_info := fun img type size data => (XGL_ERROR_INVALID_VALUE, size, data) |}.

Definition sample_dev : intel_dev := {| dev_handle := 1 |}.

(** A [w] x [h] image with [layers] array layers. *)
Definition sample_info (fmt : N) (w h : Z) (layers nsamples : N) : XGL_IMAGE_CREATE_INFO :=
  {| imageType := 2; format := fmt;
     extent := {| width := w; height := h; depth := 1 |};
     mipLevels := 1; arraySize := layers; samples := nsamples;
     tiling := XGL_OPTIMAL_TILING; usage := 0 |}.

(** A system with nothing allocated and room for [n] allocations. *)
Definition sample_sys (n : nat) : sys :=
  {| sys_heap := {| live := ∅; avail := n |}; sys_log := [] |}.

(** *** Concrete inputs *)

(** A 256 x 256 colour image; a 262144 x 4096 one, whose primary layout has
    stride [2^20] and height [2^12]; a 256 x 0 one, whose primary layout has
    height 0; a 250 x 250 multisampled depth-stencil one, with an auxiliary
    region and a separate stencil plane. *)
Definition small_info : XGL_IMAGE_CREATE_INFO := sample_info 1 256 256 1 1.
Definition big_info : XGL_IMAGE_CREATE_INFO := sample_info 1 262144 4096 1 1.
Definition flat_info : XGL_IMAGE_CREATE_INFO := sample_info 1 256 0 1 1.
Definition ds_info : XGL_IMAGE_CREATE_INFO := sample_info 7 250 250 1 4.

(** The system once the first block of an empty heap with room for [S n]
    blocks is taken. *)
Definition sample_sys_created (n : nat) : sys :=
  {| sys_heap := {| live := {[fresh (∅ : gset positive)]} ∪ ∅; avail := n |};
     sys_log := [] |}.

(** The colour red, [{1.0f, 0.0f, 0.0f, 1.0f}], as the bit patterns of its
    components, in an array at [color_ptr]; all other memory is zero.  The
    callee holds its parameter [color] at [color_param]. *)
Definition red : list N := [1065353216; 0; 0; 1065353216].
Definition red_bytes : list byte := concat (map (le_bytes 4) red).
Definition color_ptr : N := 140720308490240.
Definition color_param : N := 140720308490000.

Definition red_memory : memory :=
  fun a =>
    if (color_ptr <=? a) && (a <? color_ptr + 16)
    then nth (N.to_nat (a - color_ptr)) red_bytes x00
    else x00.

(** The image and the system a successful call leaves for the 250 x 250
    depth-stencil description, on an empty heap with room for two blocks. *)
Definition ds_image : intel_img :=
  @img_finish (sample_collaborators false)
    (@img_pack_s8 2
       (sample_layout_init sample_dev (set_format 8 ds_info) false)
       (@img_packed (sample_collaborators false) 1 sample_dev ds_info false)).

Definition ds_sys : sys :=
  {| sys_heap := {| live := {[2%positive]} ∪ ({[1%positive]} ∪ ∅); avail := 0 |};
     sys_log := [] |}.

(** A linear 64 x 64 image, before its sizes are computed. *)
Definition linear_image : intel_img :=
  @img_init (sample_collaborators true) 1 sample_dev
    {| imageType := 2; format := 1;
       extent := {| width := 64; height := 64; depth := 1 |};
       mipLevels := 1; arraySize := 1; samples := 1;
       tiling := XGL_LINEAR_TILING; usage := 0 |} false.

Definition small_image : intel_img :=
  @img_init (sample_collaborators true) 1 sample_dev small_info false.

(** What the caller of [xglGetImageSubresourceInfo] gets back: the status,
    the cell [*pDataSize] and the buffer. *)
Definition subresource_reply
    (r : XGL_RESULT * intel_img * N * option XGL_SUBRESOURCE_LAYOUT)
    : XGL_RESULT * N * option XGL_SUBRESOURCE_LAYOUT :=
  let '(ret, _, pDataSize, pData) := r in (ret, pDataSize, pData).

(** A linear 64 x 64 description, and the image and the system a successful
    call leaves for it on an empty heap with room for two blocks. *)
Definition linear_info : XGL_IMAGE_CREATE_INFO :=
  {| imageType := 2; format := 1;
     extent := {| width := 64; height := 64; depth := 1 |};
     mipLevels := 1; arraySize := 1; samples := 1;
     tiling := XGL_LINEAR_TILING; usage := 5 |}.

Definition linear_created : intel_img :=
  @img_finish (sample_collaborators true)
    (@img_packed (sample_collaborators true) 1 sample_dev linear_info false).

(** The depth-stencil image as a build with the hand-off descriptor
    stores it. *)
Definition ds_image_wsi : intel_img :=
  @img_finish (sample_collaborators true)
    (@img_pack_s8 2
       (sample_layout_init sample_dev (set_format 8 ds_info) false)
       (@img_packed (sample_collaborators true) 1 sample_dev ds_info false)).

(** ** Arithmetic of the capacity check and of the packing *)

Lemma intel_max_resource_size_eq : intel_max_resource_size = 2 ^ 31.
Proof. reflexivity. Qed.

Lemma div_lt_iff_lt_mul (m a b : N) : b <> 0 -> (m / b < a <-> m < a * b).
Proof.
  intros Hb. split; intros Hlt.
  - pose proof (N.mul_succ_div_gt m b Hb). nia.
  - apply N.Div0.div_lt_upper_bound. lia.
Qed.

(** The product of the two factors wraps where the division does not: a
    test [bo_stride * bo_height > 2^31] on [unsigned] operands would accept
    a [2^16 x 2^16] layout. *)
Example umul_wraps : umul (2 ^ 16) (2 ^ 16) = 0 /\ 2 ^ 31 / 2 ^ 16 < 2 ^ 16.
Proof. split; reflexivity. Qed.

Lemma umul_exact (a b : N) : fits_unsigned (a * b) -> umul a b = a * b.
Proof. intros Hfit. unfold umul, wrap. apply N.mod_small. exact Hfit. Qed.

Lemma umul_bound (a b : N) : umul a b < 2 ^ 32.
Proof. unfold umul, wrap, UINT_BITS. apply N.mod_lt. discriminate. Qed.

(** A product that passed the capacity check fits [unsigned]. *)
Lemma checked_product_fits (a b : N) : a * b <= 2 ^ 31 -> fits_unsigned (a * b).
Proof.
  unfold fits_unsigned, UINT_BITS. intros Hle.
  assert (Hpow : (2 ^ 31 < 2 ^ 32)%N) by reflexivity. lia.
Qed.

Lemma size_add_exact (a b : N) : a + b < 2 ^ 64 -> size_add a b = a + b.
Proof. intros Hlt. unfold size_add, wrap, SIZE_BITS. apply N.mod_small. exact Hlt. Qed.

(** [u_align] is the spec's align-up: a multiple of the alignment, not below
    the value, and less than one alignment above it. *)
Lemma u_align_spec (v a : N) :
  a <> 0 -> u_align v a mod a = 0 /\ v <= u_align v a /\ u_align v a < v + a.
Proof.
  intros Ha. unfold u_align.
  assert (Hx : exists x, x = v + a - 1 /\ x + 1 = v + a) by (exists (v + a - 1); lia).
  destruct Hx as (x & <- & Hx).
  pose proof (N.Div0.mod_mul (x / a) a) as Hmul.
  pose proof (N.div_mod x a Ha) as Hdiv.
  pose proof (N.mod_lt x a Ha) as Hmod.
  set (q := x / a) in *. set (r := x mod a) in *.
  repeat split; [assumption | nia | nia].
Qed.

(** It is the least such multiple. *)
Lemma u_align_least (v a k : N) : a <> 0 -> v <= k * a -> u_align v a <= k * a.
Proof.
  intros Ha Hle.
  destruct (u_align_spec v a Ha) as (Hmod & _ & Hlt).
  apply N.Div0.mod_divides in Hmod as [c Hc]. rewrite Hc in *.
  destruct (N.le_gt_cases c k) as [Hck | Hck]; nia.
Qed.

Lemma u_align_multiple (v a : N) : a <> 0 -> v mod a = 0 -> u_align v a = v.
Proof.
  intros Ha Hv. destruct (u_align_spec v a Ha) as (Hmod & Hge & Hlt).
  apply N.Div0.mod_divides in Hv as [c Hc].
  apply N.Div0.mod_divides in Hmod as [d Hd].
  rewrite Hd, Hc in *.
  destruct (N.le_gt_cases d c) as [Hdc | Hdc]; nia.
Qed.

(** ** Heap bookkeeping *)

Lemma heap_alloc_Some (s : sys) (p : positive) (s1 : sys) :
  heap_alloc s = Some (p, s1) ->
  p = fresh (live (sys_heap s)) /\
  avail (sys_heap s) = S (avail (sys_heap s1)) /\
  live (sys_heap s1) = {[p]} ∪ live (sys_heap s) /\
  sys_log s1 = sys_log s.
Proof.
  unfold heap_alloc. destruct (avail (sys_heap s)) as [|n] eqn:Havail; [discriminate|].
  intros [= <- <-]. cbn. auto.
Qed.

Lemma heap_alloc_None (s : sys) : heap_alloc s = None <-> avail (sys_heap s) = O.
Proof.
  unfold heap_alloc. destruct (avail (sys_heap s)); split; congruence.
Qed.

Lemma heap_eq (h1 h2 : heap) : live h1 = live h2 -> avail h1 = avail h2 -> h1 = h2.
Proof. destruct h1, h2. cbn. intros -> ->. reflexivity. Qed.

Section ImgProperties.
Context `{Collaborators}.

(** *** The steps of [intel_img_create] keep the primary layout *)

Lemma layout_img_pack_aux (img : intel_img) : layout (img_pack_aux img) = layout img.
Proof. unfold img_pack_aux. destruct (aux (layout img)); reflexivity. Qed.

Lemma s8_layout_img_pack_aux (img : intel_img) :
  s8_layout (img_pack_aux img) = s8_layout img.
Proof. unfold img_pack_aux. destruct (aux (layout img)); reflexivity. Qed.

Lemma obj_handle_img_pack_aux (img : intel_img) :
  obj_handle (img_pack_aux img) = obj_handle img.
Proof. unfold img_pack_aux. destruct (aux (layout img)); reflexivity. Qed.

(** *** The capacity check *)

(** The test of line 131, once the divisor is known not to be zero. *)
Lemma capacity_test (stride height : N) :
  1 <= height ->
  exists limit,
    size_div intel_max_resource_size height = Some limit /\
    limit = 2 ^ 31 / height /\
    ((limit <? stride) = true <-> 2 ^ 31 < stride * height).
Proof.
  intros Hh. exists (2 ^ 31 / height). unfold size_div.
  destruct (N.eqb_spec height 0) as [-> | Hne]; [lia|].
  rewrite intel_max_resource_size_eq. repeat split.
  - intros Hlt%N.ltb_lt. apply div_lt_iff_lt_mul; assumption.
  - intros Hlt. apply N.ltb_lt. apply div_lt_iff_lt_mul; assumption.
Qed.

(** A call that finds the base object allocated and a non-zero height
    reports the invalid size exactly when the test of line 131 fires. *)
Lemma create_invalid_size_iff (dev : intel_dev) (info : XGL_IMAGE_CREATE_INFO)
    (scanout : bool) (img_ret : option intel_img) (s s1 : sys) (handle : positive) :
  intel_base_create s = Some (handle, s1) ->
  1 <= bo_height (intel_layout_init dev info scanout) ->
  status (intel_img_create dev info scanout img_ret s) =
    Some XGL_ERROR_INVALID_MEMORY_SIZE <->
  2 ^ 31 / bo_height (intel_layout_init dev info scanout) <
    bo_stride (intel_layout_init dev info scanout).
Proof.
  intros Hbase Hh. unfold intel_img_create. rewrite Hbase. cbn [layout img_init].
  destruct (capacity_test (bo_stride (intel_layout_init dev info scanout)) _ Hh)
    as (limit & -> & -> & _).
  destruct (N.ltb_spec (2 ^ 31 / bo_height (intel_layout_init dev info scanout))
              (bo_stride (intel_layout_init dev info scanout))) as [Hlt | Hge].
  - cbn. tauto.
  - split; [|lia]. intros Hst. exfalso.
    destruct (separate_stencil _); [|discriminate Hst].
    destruct (intel_alloc s1) as [[p s2]|]; [|discriminate Hst].
    destruct (icd_format_is_ds _); discriminate Hst.
Qed.

(** A call that succeeds went through the capacity check and passed it, and
    stores the image built by the steps of the function. *)
Lemma create_success_inv (dev : intel_dev) (info : XGL_IMAGE_CREATE_INFO)
    (scanout : bool) (img_ret : option intel_img) (s s' : sys) (img : intel_img) :
  intel_img_create dev info scanout img_ret s = Returned XGL_SUCCESS (Some img) s' ->
  exists handle s1,
    intel_base_create s = Some (handle, s1) /\
    1 <= bo_height (intel_layout_init dev info scanout) /\
    bo_stride (intel_layout_init dev info scanout) *
      bo_height (intel_layout_init dev info scanout) <= 2 ^ 31 /\
    ((separate_stencil (intel_layout_init dev info scanout) = false /\
      img = img_finish (img_packed handle dev info scanout) /\ s' = s1) \/
     (separate_stencil (intel_layout_init dev info scanout) = true /\
      icd_format_is_ds (format info) = true /\
      exists p,
        intel_alloc s1 = Some (p, s') /\
        img = img_finish
                (img_pack_s8 p
                   (intel_layout_init dev (set_format XGL_FMT_S8_UINT info) scanout)
                   (img_packed handle dev info scanout)))).
Proof.
  unfold intel_img_create. intros Hrun.
  destruct (intel_base_create s) as [[handle s1]|] eqn:Hbase; [|discriminate Hrun].
  exists handle, s1. cbn [layout img_init] in Hrun.
  set (l := intel_layout_init dev info scanout) in *.
  assert (Hh : 1 <= bo_height l).
  { revert Hrun. unfold size_div.
    destruct (N.eqb_spec (bo_height l) 0) as [Hz | Hnz]; [discriminate | lia]. }
  destruct (capacity_test (bo_stride l) _ Hh) as (limit & Hdiv & -> & Htest).
  rewrite Hdiv in Hrun.
  destruct (2 ^ 31 / bo_height l <? bo_stride l) eqn:Hcmp; [discriminate Hrun|].
  assert (Hle : bo_stride l * bo_height l <= 2 ^ 31).
  { destruct (N.le_gt_cases (bo_stride l * bo_height l) (2 ^ 31)) as [Hle | Hgt];
      [exact Hle|]. apply Htest in Hgt. congruence. }
  repeat split; try assumption.
  rewrite layout_img_pack_aux in Hrun.
  cbn [layout set_total_size img_init] in Hrun. fold l in Hrun.
  destruct (separate_stencil l).
  - right. destruct (intel_alloc s1) as [[p s2]|]; [|discriminate Hrun].
    destruct (icd_format_is_ds _); [|discriminate Hrun].
    unfold img_publish in Hrun. injection Hrun as <- <-.
    repeat split. exists p. split; reflexivity.
  - left. unfold img_publish in Hrun. injection Hrun as <- <-.
    repeat split.
Qed.

(** *** Fields of the image a successful call stores *)

Lemma img_finish_fields (img : intel_img) :
  layout (img_finish img) = layout img /\
  s8_layout (img_finish img) = s8_layout img /\
  total_size (img_finish img) = total_size img /\
  aux_offset (img_finish img) = aux_offset img /\
  s8_offset (img_finish img) = s8_offset img /\
  obj_handle (img_finish img) = obj_handle img.
Proof. unfold img_finish. destruct ENABLE_WSI_X11; repeat split. Qed.

Lemma img_packed_fields (handle : positive) (dev : intel_dev)
    (info : XGL_IMAGE_CREATE_INFO) (scanout : bool) :
  layout (img_packed handle dev info scanout) = intel_layout_init dev info scanout /\
  s8_layout (img_packed handle dev info scanout) = None /\
  obj_handle (img_packed handle dev info scanout) = handle.
Proof.
  unfold img_packed.
  rewrite layout_img_pack_aux, s8_layout_img_pack_aux, obj_handle_img_pack_aux.
  repeat split.
Qed.

Lemma create_success_layout (dev : intel_dev) (info : XGL_IMAGE_CREATE_INFO)
    (scanout : bool) (img_ret : option intel_img) (s s' : sys) (img : intel_img) :
  intel_img_create dev info scanout img_ret s = Returned XGL_SUCCESS (Some img) s' ->
  layout img = intel_layout_init dev info scanout /\
  1 <= bo_height (intel_layout_init dev info scanout) /\
  bo_stride (intel_layout_init dev info scanout) *
    bo_height (intel_layout_init dev info scanout) <= 2 ^ 31.
Proof.
  intros Hrun.
  apply create_success_inv in Hrun as (handle & s1 & _ & Hh & Hle & Hcases).
  repeat split; try assumption.
  destruct (img_packed_fields handle dev info scanout) as (Hl & _).
  destruct Hcases as [(_ & -> & _) | (_ & _ & p & _ & ->)].
  - destruct (img_finish_fields (img_packed handle dev info scanout)) as (-> & _).
    exact Hl.
  - match goal with |- layout (img_finish ?i) = _ =>
      destruct (img_finish_fields i) as (-> & _) end.
    exact Hl.
Qed.

(** C1. Whenever a call of [intel_img_create] derives a primary layout (the
    base object is allocated) whose [bo_height] is at least 1, the call
    fails with [XGL_ERROR_INVALID_MEMORY_SIZE] exactly when
    [bo_stride > 2^31 / bo_height]; that test, made by division, is
    equivalent to the comparison [bo_stride * bo_height > 2^31] in exact
    arithmetic; and every image a call returns with [XGL_SUCCESS] has
    [bo_stride * bo_height <= 2^31]. *)
Theorem C1_capacity_check (dev : intel_dev) (info : XGL_IMAGE_CREATE_INFO)
    (scanout : bool) (img_ret : option intel_img) (s : sys) :
  (forall handle s1,
     intel_base_create s = Some (handle, s1) ->
     1 <= bo_height (intel_layout_init dev info scanout) ->
     (status (intel_img_create dev info scanout img_ret s) =
        Some XGL_ERROR_INVALID_MEMORY_SIZE <->
      2 ^ 31 / bo_height (intel_layout_init dev info scanout) <
        bo_stride (intel_layout_init dev info scanout)) /\
     (2 ^ 31 / bo_height (intel_layout_init dev info scanout) <
        bo_stride (intel_layout_init dev info scanout) <->
      2 ^ 31 <
        bo_stride (intel_layout_init dev info scanout) *
        bo_height (intel_layout_init dev info scanout))) /\
  (forall img s',
     intel_img_create dev info scanout img_ret s = Returned XGL_SUCCESS (Some img) s' ->
     layout img = intel_layout_init dev info scanout /\
     bo_stride (layout img) * bo_height (layout img) <= 2 ^ 31).
Proof.
  split.
  - intros handle s1 Hbase Hh. split.
    + eapply create_invalid_size_iff; eassumption.
    + apply div_lt_iff_lt_mul. lia.
  - intros img s' Hrun.
    apply create_success_layout in Hrun as (Hl & _ & Hle). rewrite Hl. auto.
Qed.

(** C10. The division of line 131 has no guard: once the base object is
    allocated, a primary layout with [bo_height = 0] stops the call at the
    division, in the state the allocation left (nothing logged, nothing
    released, no status returned), and a layout with [bo_height >= 1] never
    does. *)
Theorem C10_division_unguarded (dev : intel_dev) (info : XGL_IMAGE_CREATE_INFO)
    (scanout : bool) (img_ret : option intel_img) (s s1 : sys) (handle : positive) :
  intel_base_create s = Some (handle, s1) ->
  (bo_height (intel_layout_init dev info scanout) = 0 ->
   size_div intel_max_resource_size (bo_height (intel_layout_init dev info scanout)) = None /\
   intel_img_create dev info scanout img_ret s = Trapped DivisionByZero s1 /\
   sys_log s1 = sys_log s /\ handle ∈ live (sys_heap s1)) /\
  (1 <= bo_height (intel_layout_init dev info scanout) ->
   size_div intel_max_resource_size (bo_height (intel_layout_init dev info scanout)) =
     Some (2 ^ 31 / bo_height (intel_layout_init dev info scanout)) /\
   forall s', intel_img_create dev info scanout img_ret s <> Trapped DivisionByZero s').
Proof.
  intros Hbase. split.
  - intros Hz. unfold intel_img_create. rewrite Hbase. cbn [layout img_init].
    rewrite Hz. cbn. repeat split.
    + apply heap_alloc_Some in Hbase. tauto.
    + apply heap_alloc_Some in Hbase as (_ & _ & -> & _). set_solver.
  - intros Hh.
    destruct (capacity_test (bo_stride (intel_layout_init dev info scanout)) _ Hh)
      as (limit & Hdiv & -> & _).
    split; [exact Hdiv|]. intros s'.
    unfold intel_img_create. rewrite Hbase. cbn [layout img_init]. rewrite Hdiv.
    destruct (_ <? _); [discriminate|].
    destruct (separate_stencil _); [|discriminate].
    destruct (intel_alloc s1) as [[p s2]|]; [|discriminate].
    destruct (icd_format_is_ds _); discriminate.
Qed.

End ImgProperties.

Section Footprint.
Context `{Collaborators}.

(** *** The footprint the steps compute *)

Lemma img_pack_aux_footprint (img : intel_img) :
  total_size img = primary_size img ->
  primary_size img <= 2 ^ 31 ->
  (has_aux img = true ->
   aux_offset (img_pack_aux img) = u_align (primary_size img) 4096) /\
  total_size (img_pack_aux img) =
    packed_after_aux img (umul (aux_stride (layout img)) (aux_height (layout img))) /\
  total_size (img_pack_aux img) < 2 ^ 33.
Proof.
  intros Htot Hle.
  assert (Hp : 2 ^ 31 + 4096 + 2 ^ 32 < 2 ^ 33) by reflexivity.
  assert (Hq : 2 ^ 33 < 2 ^ 64) by reflexivity.
  destruct (u_align_spec (primary_size img) 4096) as (_ & _ & Hal); [discriminate|].
  pose proof (umul_bound (aux_stride (layout img)) (aux_height (layout img))) as Haux.
  assert (Hsum : size_add (u_align (primary_size img) 4096)
                   (umul (aux_stride (layout img)) (aux_height (layout img))) =
                 u_align (primary_size img) 4096 +
                 umul (aux_stride (layout img)) (aux_height (layout img)))
    by (apply size_add_exact; lia).
  unfold img_pack_aux, has_aux, packed_after_aux, has_aux.
  destruct (aux (layout img)); cbn; rewrite ?Htot, ?Hsum;
    repeat split; try discriminate; lia.
Qed.

Lemma img_packed_footprint (handle : positive) (dev : intel_dev)
    (info : XGL_IMAGE_CREATE_INFO) (scanout : bool) :
  bo_stride (intel_layout_init dev info scanout) *
    bo_height (intel_layout_init dev info scanout) <= 2 ^ 31 ->
  let img := img_packed handle dev info scanout in
  (has_aux img = true -> aux_offset img = u_align (primary_size img) 4096) /\
  total_size img =
    packed_after_aux img (umul (aux_stride (layout img)) (aux_height (layout img))) /\
  total_size img < 2 ^ 33.
Proof.
  intros Hle img.
  pose proof (umul_exact _ _ (checked_product_fits _ _ Hle)) as Hprim.
  set (i0 := set_total_size
               (umul (bo_stride (intel_layout_init dev info scanout))
                     (bo_height (intel_layout_init dev info scanout)))
               (img_init handle dev info scanout)).
  assert (Himg : img = img_pack_aux i0) by reflexivity.
  assert (Hl : layout img = layout i0) by (rewrite Himg; apply layout_img_pack_aux).
  assert (Ht0 : total_size i0 = primary_size i0) by (cbn; exact Hprim).
  assert (Hle0 : primary_size i0 <= 2 ^ 31) by exact Hle.
  destruct (img_pack_aux_footprint i0 Ht0 Hle0) as (Ha & Ht & Hb).
  unfold has_aux, packed_after_aux, primary_size, has_aux, primary_size in *.
  rewrite Hl, Himg. auto.
Qed.

Lemma img_pack_s8_footprint (p : positive) (s8 : intel_layout) (img : intel_img) :
  total_size img < 2 ^ 33 ->
  let img' := img_pack_s8 p s8 img in
  layout img' = layout img /\
  aux_offset img' = aux_offset img /\
  s8_layout img' = Some (p, s8) /\
  s8_offset img' = u_align (total_size img) 4096 /\
  total_size img' =
    u_align (total_size img) 4096 + umul (bo_stride s8) (bo_height s8).
Proof.
  intros Hlt img'. subst img'. unfold img_pack_s8. cbn.
  repeat split.
  assert (Hp : 2 ^ 33 + 4096 + 2 ^ 32 < 2 ^ 64) by reflexivity.
  destruct (u_align_spec (total_size img) 4096) as (_ & _ & Hal); [discriminate|].
  pose proof (umul_bound (bo_stride s8) (bo_height s8)) as Hs8.
  apply size_add_exact. lia.
Qed.

(** What a successful call stores, for every layout the provider may return:
    the packing of the spec over the computed region sizes; no [size_t]
    addition wraps. *)
Lemma create_success_footprint (dev : intel_dev) (info : XGL_IMAGE_CREATE_INFO)
    (scanout : bool) (img_ret : option intel_img) (s s' : sys) (img : intel_img) :
  intel_img_create dev info scanout img_ret s = Returned XGL_SUCCESS (Some img) s' ->
  primary_size img <= 2 ^ 31 /\
  has_s8 img = separate_stencil (layout img) /\
  (has_aux img = true -> aux_offset img = u_align (primary_size img) 4096) /\
  (has_s8 img = true ->
   s8_offset img = u_align (packed_after_aux img (aux_size_computed img)) 4096) /\
  total_size img = packed_total img (aux_size_computed img) (s8_size_computed img).
Proof.
  intros Hrun.
  apply create_success_inv in Hrun as (handle & s1 & _ & _ & Hle & Hcases).
  destruct (img_packed_footprint handle dev info scanout Hle) as (Haux & Htot & Hbound).
  destruct (img_packed_fields handle dev info scanout) as (Hl & Hs8 & _).
  set (i := img_packed handle dev info scanout) in *.
  destruct Hcases as [(Hsep & -> & _) | (Hsep & _ & p & _ & ->)].
  - destruct (img_finish_fields i) as (Fl & Fs8 & Ft & Fa & Fo & _).
    unfold primary_size, has_s8, has_aux, packed_total, packed_after_aux,
      aux_size_computed, s8_size_computed, has_s8, has_aux, primary_size in *.
    rewrite Fl, Fs8, Ft, Fa, Hs8, Hl in *. rewrite Hsep.
    repeat split; try assumption; discriminate.
  - set (s8 := intel_layout_init dev (set_format XGL_FMT_S8_UINT info) scanout) in *.
    destruct (img_pack_s8_footprint p s8 i Hbound) as (Pl & Pa & Ps8 & Po & Pt).
    destruct (img_finish_fields (img_pack_s8 p s8 i)) as (Fl & Fs8 & Ft & Fa & Fo & _).
    unfold primary_size, has_s8, has_aux, packed_total, packed_after_aux,
      aux_size_computed, s8_size_computed, has_s8, has_aux, primary_size in *.
    rewrite Fl, Fs8, Ft, Fa, Fo, Pl, Pa, Ps8, Po, Pt, Hl in *. rewrite Hsep.
    rewrite <- Htot. repeat split; assumption.
Qed.

(** Where the region sizes fit [unsigned], the computed sizes are the exact
    ones. *)
Lemma computed_sizes_exact (img : intel_img) :
  regions_representable img ->
  packed_after_aux img (aux_size_computed img) = packed_after_aux img (aux_size img) /\
  packed_total img (aux_size_computed img) (s8_size_computed img) =
    packed_total img (aux_size img) (s8_size img).
Proof.
  intros [Haux Hs8].
  assert (Ha : packed_after_aux img (aux_size_computed img) =
               packed_after_aux img (aux_size img)).
  { unfold packed_after_aux, aux_size_computed. destruct (has_aux img); [|reflexivity].
    rewrite umul_exact; [reflexivity | apply Haux; reflexivity]. }
  split; [exact Ha|].
  unfold packed_total. rewrite Ha. destruct (has_s8 img) eqn:Hhas; [|reflexivity].
  f_equal. specialize (Hs8 eq_refl). revert Hs8. unfold s8_size_computed, s8_size.
  destruct (s8_layout img) as [[p s8]|]; [|reflexivity].
  intros Hfit. apply umul_exact. exact Hfit.
Qed.

(** C2. For every description for which [intel_img_create] succeeds,
    [total_size] is the primary [bo_stride * bo_height], in exact arithmetic;
    then, with an auxiliary region, [aux_offset = align_up(total_size, 4096)]
    and [total_size] becomes [aux_offset + aux_stride * aux_height]; then,
    with a separate stencil plane, [s8_offset = align_up(total_size, 4096)]
    and [total_size] becomes [s8_offset + bo_stride * bo_height] of the
    stencil layout, in that order; with neither region,
    [total_size = bo_stride * bo_height].  The two later products are the
    [unsigned] products the driver computes; they are the exact products
    whenever these fit [unsigned], and no addition wraps. *)
Theorem C2_total_size_packing (dev : intel_dev) (info : XGL_IMAGE_CREATE_INFO)
    (scanout : bool) (img_ret : option intel_img) (s s' : sys) (img : intel_img) :
  intel_img_create dev info scanout img_ret s = Returned XGL_SUCCESS (Some img) s' ->
  ((has_aux img = true -> aux_offset img = u_align (primary_size img) 4096) /\
   (has_s8 img = true ->
    s8_offset img = u_align (packed_after_aux img (aux_size_computed img)) 4096) /\
   total_size img = packed_total img (aux_size_computed img) (s8_size_computed img) /\
   (has_aux img = false -> has_s8 img = false ->
    total_size img = bo_stride (layout img) * bo_height (layout img))) /\
  (regions_representable img ->
   (has_s8 img = true ->
    s8_offset img = u_align (packed_after_aux img (aux_size img)) 4096) /\
   total_size img = packed_total img (aux_size img) (s8_size img)).
Proof.
  intros Hrun.
  apply create_success_footprint in Hrun as (_ & _ & Haux & Hs8 & Htot).
  split.
  - repeat split; try assumption.
    intros Hna Hns. rewrite Htot. unfold packed_total, packed_after_aux.
    rewrite Hna, Hns. reflexivity.
  - intros Hrep. destruct (computed_sizes_exact img Hrep) as [Ha Ht].
    rewrite Ha in Hs8. rewrite Ht in Htot. split; assumption.
Qed.

Lemma disjoint_apart (r1 r2 : region) : base r1 + size r1 <= base r2 -> disjoint r1 r2.
Proof. unfold disjoint, in_region. intros Hle b. lia. Qed.

(** Offsets aligned up in the order primary, auxiliary, stencil give
    aligned, ordered and disjoint regions, whatever the two later sizes. *)
Lemma packed_regions_disjoint (img : intel_img) (aux_sz s8_sz : N) :
  (has_aux img = true -> aux_offset img = u_align (primary_size img) 4096) ->
  (has_s8 img = true ->
   s8_offset img = u_align (packed_after_aux img aux_sz) 4096) ->
  Forall (fun r => base r mod 4096 = 0) (img_regions img aux_sz s8_sz) /\
  (has_aux img = true -> primary_size img <= aux_offset img) /\
  (has_s8 img = true -> packed_after_aux img aux_sz <= s8_offset img) /\
  ForallOrdPairs disjoint (img_regions img aux_sz s8_sz).
Proof.
  intros Haux Hs8.
  destruct (u_align_spec (primary_size img) 4096) as (Pm & Pge & _); [discriminate|].
  destruct (u_align_spec (packed_after_aux img aux_sz) 4096)
    as (Sm & Sge & _); [discriminate|].
  unfold img_regions, packed_after_aux in *.
  destruct (has_aux img), (has_s8 img); cbn [app];
    rewrite ?(Haux eq_refl), ?(Hs8 eq_refl) in *.
  - repeat split; try (intros _; assumption).
    + repeat constructor; assumption.
    + repeat constructor; apply disjoint_apart; cbn; lia.
  - repeat split; try (intros _; assumption); try discriminate.
    + repeat constructor; assumption.
    + repeat constructor; apply disjoint_apart; cbn; lia.
  - repeat split; try (intros _; assumption); try discriminate.
    + repeat constructor; assumption.
    + repeat constructor; apply disjoint_apart; cbn; lia.
  - repeat split; try discriminate; repeat constructor.
Qed.

(** C3. For every successfully created image, every present region starts
    at a multiple of 4096, the primary one at 0; [aux_offset] is not below
    the primary size it was aligned up from; the stencil offset is not below
    the end of the aux-adjusted size; and the byte ranges of the primary,
    auxiliary and stencil regions are pairwise disjoint: for the region sizes
    as the driver computes them, and for the exact sizes whenever these fit
    the [unsigned] products. *)
Theorem C3_regions_aligned_disjoint (dev : intel_dev) (info : XGL_IMAGE_CREATE_INFO)
    (scanout : bool) (img_ret : option intel_img) (s s' : sys) (img : intel_img) :
  intel_img_create dev info scanout img_ret s = Returned XGL_SUCCESS (Some img) s' ->
  (Forall (fun r => base r mod 4096 = 0)
     (img_regions img (aux_size_computed img) (s8_size_computed img)) /\
   (has_aux img = true -> primary_size img <= aux_offset img) /\
   (has_s8 img = true ->
    packed_after_aux img (aux_size_computed img) <= s8_offset img) /\
   ForallOrdPairs disjoint
     (img_regions img (aux_size_computed img) (s8_size_computed img))) /\
  (regions_representable img ->
   Forall (fun r => base r mod 4096 = 0)
     (img_regions img (aux_size img) (s8_size img)) /\
   (has_s8 img = true -> packed_after_aux img (aux_size img) <= s8_offset img) /\
   ForallOrdPairs disjoint (img_regions img (aux_size img) (s8_size img))).
Proof.
  intros Hrun.
  apply create_success_footprint in Hrun as (_ & _ & Haux & Hs8 & _).
  split.
  - apply packed_regions_disjoint; assumption.
  - intros Hrep. destruct (computed_sizes_exact img Hrep) as [Ha _].
    rewrite Ha in Hs8.
    destruct (packed_regions_disjoint img (aux_size img) (s8_size img) Haux Hs8)
      as (Halign & _ & Hge & Hdisj).
    repeat split; assumption.
Qed.

End Footprint.

Section Atomicity.
Context `{Collaborators}.

(** *** What [intel_img_destroy] does to the heap *)

Lemma intel_img_destroy_heap (img : intel_img) (s : sys) :
  s8_layout img = None ->
  sys_heap (intel_img_destroy img s) =
    {| live := live (sys_heap s) ∖ {[obj_handle img]};
       avail := S (avail (sys_heap s)) |}.
Proof.
  intros Hs8. unfold intel_img_destroy. rewrite Hs8.
  unfold intel_base_destroy, intel_mem_free, close.
  destruct ENABLE_WSI_X11; [destruct (0 <=? x11_prime_fd img)%Z|]; reflexivity.
Qed.

(** Destroying an image without stencil storage right after its base object
    was allocated gives the heap back as it was. *)
Lemma destroy_after_create (img : intel_img) (s s1 s2 : sys) :
  intel_base_create s = Some (obj_handle img, s1) ->
  s8_layout img = None ->
  sys_heap s2 = sys_heap s1 ->
  sys_heap (intel_img_destroy img s2) = sys_heap s.
Proof.
  intros Hbase Hs8 Hheap. rewrite intel_img_destroy_heap by exact Hs8.
  apply heap_alloc_Some in Hbase as (Hp & Havail & Hlive & _).
  rewrite Hheap. apply heap_eq; cbn.
  - rewrite Hlive. pose proof (is_fresh (live (sys_heap s))) as Hfresh.
    rewrite <- Hp in Hfresh.
    apply set_eq. intros x.
    rewrite elem_of_difference, elem_of_union, !elem_of_singleton.
    split; [intros [[-> | Hx] Hne]; [contradiction | exact Hx]|].
    intros Hx. split; [right; exact Hx|]. intros ->. contradiction.
  - congruence.
Qed.

Lemma img_finish_populated (img : intel_img) :
  type (img_finish img) = type img /\
  img_depth (img_finish img) = img_depth img /\
  mip_levels (img_finish img) = mip_levels img /\
  array_size (img_finish img) = array_size img /\
  img_usage (img_finish img) = img_usage img /\
  format_class (img_finish img) = format_class img /\
  img_samples (img_finish img) = img_samples img /\
  obj_destroy (img_finish img) = Some hook_img_destroy /\
  obj_get_info (img_finish img) = Some hook_img_get_info /\
  (if ENABLE_WSI_X11 then x11_prime_fd (img_finish img) = (-1)%Z else True) /\
  clear_color (img_finish img) = clear_color img /\
  clear_depth (img_finish img) = clear_depth img.
Proof. unfold img_finish. destruct ENABLE_WSI_X11; repeat split. Qed.

Lemma img_pack_aux_populated (img : intel_img) :
  type (img_pack_aux img) = type img /\
  img_depth (img_pack_aux img) = img_depth img /\
  mip_levels (img_pack_aux img) = mip_levels img /\
  array_size (img_pack_aux img) = array_size img /\
  img_usage (img_pack_aux img) = img_usage img /\
  format_class (img_pack_aux img) = format_class img /\
  img_samples (img_pack_aux img) = img_samples img /\
  clear_color (img_pack_aux img) = clear_color img /\
  clear_depth (img_pack_aux img) = clear_depth img.
Proof. unfold img_pack_aux. destruct (aux (layout img)); repeat split. Qed.

Lemma img_packed_populated (handle : positive) (dev : intel_dev)
    (info : XGL_IMAGE_CREATE_INFO) (scanout : bool) (img : intel_img) :
  layout img = layout (img_packed handle dev info scanout) ->
  type img = type (img_packed handle dev info scanout) ->
  img_depth img = img_depth (img_packed handle dev info scanout) ->
  mip_levels img = mip_levels (img_packed handle dev info scanout) ->
  array_size img = array_size (img_packed handle dev info scanout) ->
  img_usage img = img_usage (img_packed handle dev info scanout) ->
  format_class img = format_class (img_packed handle dev info scanout) ->
  img_samples img = img_samples (img_packed handle dev info scanout) ->
  clear_color img = clear_color (img_packed handle dev info scanout) ->
  clear_depth img = clear_depth (img_packed handle dev info scanout) ->
  (if separate_stencil (intel_layout_init dev info scanout)
   then exists p,
     s8_layout (img_finish img) =
       Some (p, intel_layout_init dev (set_format XGL_FMT_S8_UINT info) scanout)
   else s8_layout (img_finish img) = None) ->
  populated dev info scanout (img_finish img).
Proof.
  intros Hl Ht Hd Hm Ha Hu Hf Hs Hc Hz Hs8.
  destruct (img_packed_fields handle dev info scanout) as (Pl & _ & _).
  destruct (img_finish_populated img)
    as (Ft & Fd & Fm & Fa & Fu & Ff & Fs & Fdes & Fget & Fx & Fc & Fz).
  destruct (img_finish_fields img) as (Fl & _).
  destruct (img_pack_aux_populated
              (set_total_size
                 (umul (bo_stride (layout (img_init handle dev info scanout)))
                    (bo_height (layout (img_init handle dev info scanout))))
                 (img_init handle dev info scanout)))
    as (At & Ad & Am & Aa & Au & Af & As & Ac & Az).
  fold (img_packed handle dev info scanout) in At, Ad, Am, Aa, Au, Af, As, Ac, Az.
  unfold populated.
  rewrite Ft, Fd, Fm, Fa, Fu, Ff, Fs, Fc, Fz, Fl.
  rewrite Hl, Ht, Hd, Hm, Ha, Hu, Hf, Hs, Hc, Hz, Pl.
  rewrite At, Ad, Am, Aa, Au, Af, As, Ac, Az. cbn.
  repeat split; assumption.
Qed.

(** C4 (amended). For every input whose primary layout, when the base
    object is allocated, has [bo_height >= 1], and whose format satisfies the
    assertion of line 158 when the layout asks for a separate stencil plane,
    [intel_img_create] returns, in one of three ways: [XGL_SUCCESS] with a
    fully populated image stored in [*img_ret], the heap grown by exactly the
    blocks of that image; [XGL_ERROR_OUT_OF_MEMORY], when the base object or
    the stencil layout storage cannot be allocated; or
    [XGL_ERROR_INVALID_MEMORY_SIZE], when the capacity check fires.  In the
    two failing ways the heap is as before the call and [*img_ret] is
    unwritten. *)
Theorem C4_create_atomic (dev : intel_dev) (info : XGL_IMAGE_CREATE_INFO)
    (scanout : bool) (img_ret : option intel_img) (s : sys) :
  (avail (sys_heap s) <> O -> 1 <= bo_height (intel_layout_init dev info scanout)) ->
  (separate_stencil (intel_layout_init dev info scanout) = true ->
   icd_format_is_ds (format info) = true) ->
  (exists img s',
     intel_img_create dev info scanout img_ret s =
       Returned XGL_SUCCESS (Some img) s' /\
     populated dev info scanout img /\
     live (sys_heap s') = img_blocks img ∪ live (sys_heap s) /\
     sys_log s' = sys_log s) \/
  (exists s',
     intel_img_create dev info scanout img_ret s =
       Returned XGL_ERROR_OUT_OF_MEMORY img_ret s' /\
     sys_heap s' = sys_heap s /\
     (avail (sys_heap s) = O \/
      (avail (sys_heap s) = 1%nat /\
       separate_stencil (intel_layout_init dev info scanout) = true))) \/
  (exists s',
     intel_img_create dev info scanout img_ret s =
       Returned XGL_ERROR_INVALID_MEMORY_SIZE img_ret s' /\
     sys_heap s' = sys_heap s /\
     2 ^ 31 < bo_stride (intel_layout_init dev info scanout) *
              bo_height (intel_layout_init dev info scanout)).
Proof.
  intros Hheight Hds. unfold intel_img_create.
  destruct (intel_base_create s) as [[handle s1]|] eqn:Hbase.
  2:{ right. left. exists s. apply heap_alloc_None in Hbase. auto. }
  pose proof (heap_alloc_Some _ _ _ Hbase) as (Hfresh & Havail & Hlive & Hlog).
  assert (Hh : 1 <= bo_height (intel_layout_init dev info scanout))
    by (apply Hheight; lia).
  cbn [layout img_init].
  set (l := intel_layout_init dev info scanout) in *.
  destruct (capacity_test (bo_stride l) _ Hh) as (limit & -> & -> & Htest).
  destruct (2 ^ 31 / bo_height l <? bo_stride l) eqn:Hcmp.
  { right. right. eexists. split; [reflexivity|]. split; [|apply Htest; reflexivity].
    eapply destroy_after_create; [exact Hbase | reflexivity | reflexivity]. }
  rewrite layout_img_pack_aux. cbn [layout set_total_size img_init]. fold l.
  change (img_pack_aux
            (set_total_size (umul (bo_stride l) (bo_height l))
               (img_init handle dev info scanout)))
    with (img_packed handle dev info scanout).
  destruct (img_packed_fields handle dev info scanout) as (Pl & Ps8 & Ph).
  destruct (separate_stencil l) eqn:Hsep.
  - destruct (intel_alloc s1) as [[p s2]|] eqn:Halloc.
    + rewrite (Hds eq_refl). left. do 2 eexists. split; [reflexivity|].
      pose proof (heap_alloc_Some _ _ _ Halloc) as (_ & _ & Hlive2 & Hlog2).
      set (s8 := intel_layout_init dev (set_format XGL_FMT_S8_UINT info) scanout).
      match goal with |- populated _ _ _ (img_finish ?i) /\ _ =>
        destruct (img_finish_fields i) as (Fl & Fs8 & _ & _ & _ & Fh) end.
      split; [|split].
      * apply (img_packed_populated handle); try reflexivity.
        fold l. rewrite Hsep, Fs8. exists p. reflexivity.
      * unfold img_blocks. rewrite Fs8, Fh. cbn. rewrite Ph, Hlive2, Hlive.
        apply set_eq. intros x. rewrite !elem_of_union. tauto.
      * congruence.
    + right. left. eexists. split; [reflexivity|]. split.
      * eapply destroy_after_create; [|reflexivity|reflexivity].
        cbn. rewrite Ph. exact Hbase.
      * right. apply heap_alloc_None in Halloc. split; [lia | reflexivity].
  - left. do 2 eexists. split; [reflexivity|].
    destruct (img_finish_fields (img_packed handle dev info scanout))
      as (Fl & Fs8 & _ & _ & _ & Fh).
    split; [|split].
    * apply (img_packed_populated handle); try reflexivity.
      fold l. rewrite Hsep, Fs8. exact Ps8.
    * unfold img_blocks. rewrite Fs8, Fh, Ps8, Ph, Hlive.
      apply set_eq. intros x. rewrite !elem_of_union, elem_of_empty. tauto.
    * exact Hlog.
Qed.

End Atomicity.

(** ** Queries *)

Section Queries.
Context `{Collaborators}.

(** C5. For every image and every subresource, the subresource-layout query
    on a buffer succeeds, reports the size of the structure, leaves the image
    as it was and fills the buffer with: [rowPitch], the primary layout's
    [bo_stride]; [depthPitch], the slice stride of the mip level; [size], the
    slice size of the mip level; [offset], the slice position mapped through
    the provider's position-to-memory and memory-to-linear conversions, with
    no region base added.  Without a buffer it reports the size only. *)
Theorem C5_subresource_layout (img : intel_img) (sub : XGL_IMAGE_SUBRESOURCE)
    (pDataSize : N) (buf : XGL_SUBRESOURCE_LAYOUT) :
  (exists out,
     xglGetImageSubresourceInfo img sub XGL_INFO_TYPE_SUBRESOURCE_LAYOUT
       pDataSize (Some buf) =
       (XGL_SUCCESS, img, sizeof_XGL_SUBRESOURCE_LAYOUT, Some out) /\
     sl_rowPitch out = bo_stride (layout img) /\
     sl_depthPitch out = intel_layout_get_slice_stride (layout img) (mipLevel sub) /\
     sl_size out = intel_layout_get_slice_size (layout img) (mipLevel sub) /\
     sl_offset out = slice_offset (layout img) sub) /\
  xglGetImageSubresourceInfo img sub XGL_INFO_TYPE_SUBRESOURCE_LAYOUT pDataSize None =
    (XGL_SUCCESS, img, sizeof_XGL_SUBRESOURCE_LAYOUT, None).
Proof.
  unfold xglGetImageSubresourceInfo, slice_offset.
  destruct (intel_layout_get_slice_pos (layout img) (mipLevel sub) (arraySlice sub))
    as [x y].
  cbn [fst snd].
  destruct (intel_layout_pos_to_mem (layout img) x y) as [mx my].
  split; [|reflexivity].
  eexists. split; [reflexivity|]. repeat split.
Qed.

(** C8. For every image, subresource and selector other than the
    subresource-layout kind, [xglGetImageSubresourceInfo] returns
    [XGL_ERROR_INVALID_VALUE] and leaves the image, [*pDataSize] and the
    buffer as they were. *)
Theorem C8_invalid_selector (img : intel_img) (sub : XGL_IMAGE_SUBRESOURCE)
    (infoType : XGL_SUBRESOURCE_INFO_TYPE) (pDataSize : N)
    (pData : option XGL_SUBRESOURCE_LAYOUT) :
  infoType <> XGL_INFO_TYPE_SUBRESOURCE_LAYOUT ->
  xglGetImageSubresourceInfo img sub infoType pDataSize pData =
    (XGL_ERROR_INVALID_VALUE, img, pDataSize, pData).
Proof.
  intros Hkind. destruct infoType as [|code]; [contradiction|]. reflexivity.
Qed.

(** C6. For every image, the generic memory-requirements query on a buffer
    succeeds and fills it with the image's [total_size], the alignment 4096,
    and the memory type: buffer for the linear format class, image for
    every other class; with a null buffer it writes only the size of the
    structure and succeeds. *)
Theorem C6_memory_requirements (img : intel_img) (size : N) (buf : info_data) :
  (exists mem_req,
     img_get_info img XGL_INFO_TYPE_MEMORY_REQUIREMENTS size (Some buf) =
       (XGL_SUCCESS, sizeof_XGL_MEMORY_REQUIREMENTS,
        Some (data_MEMORY_REQUIREMENTS mem_req)) /\
     mr_size mem_req = total_size img /\
     mr_alignment mem_req = 4096 /\
     (format_class img = XGL_IMAGE_FORMAT_CLASS_LINEAR ->
      mr_memType mem_req = XGL_MEMORY_TYPE_BUFFER) /\
     (format_class img <> XGL_IMAGE_FORMAT_CLASS_LINEAR ->
      mr_memType mem_req = XGL_MEMORY_TYPE_IMAGE)) /\
  img_get_info img XGL_INFO_TYPE_MEMORY_REQUIREMENTS size None =
    (XGL_SUCCESS, sizeof_XGL_MEMORY_REQUIREMENTS, None).
Proof.
  split; [|reflexivity].
  eexists. split; [reflexivity|]. cbn.
  destruct (format_class img) as [|code].
  - repeat split. intros Hne. contradiction.
  - repeat split. intros Heq. discriminate Heq.
Qed.

End Queries.

(** ** Destruction of a partially initialised image *)

Section Destroy.
Context `{Collaborators}.

(** Without stencil storage, [intel_img_destroy] frees no stencil layout:
    the events it adds end with the release of the base object and hold no
    [intel_free]. *)
Lemma intel_img_destroy_no_s8 (img : intel_img) (s : sys) :
  s8_layout img = None ->
  exists handoff,
    sys_log (intel_img_destroy img s) =
      sys_log s ++ handoff ++ [EvBaseDestroy (obj_handle img)] /\
    forall p, ~ In (EvFree p) handoff.
Proof.
  intros Hs8. unfold intel_img_destroy. rewrite Hs8.
  destruct ENABLE_WSI_X11; [destruct (0 <=? x11_prime_fd img)%Z|].
  - exists [EvClose (x11_prime_fd img); EvMemFree (obj_mem img)]. split.
    + cbn. rewrite <- !app_assoc. reflexivity.
    + intros p [Hin | [Hin | []]]; discriminate Hin.
  - exists []. split; [reflexivity | intros p []].
  - exists []. split; [reflexivity | intros p []].
Qed.

(** With the hand-off descriptor compiled in, an image that has not reached
    line 171 still has the zero descriptor of the fresh object, and its
    destruction closes descriptor 0 and frees the null memory object. *)
Lemma intel_img_destroy_before_handoff (handle : positive) (dev : intel_dev)
    (info : XGL_IMAGE_CREATE_INFO) (scanout : bool) (s : sys) :
  ENABLE_WSI_X11 = true ->
  sys_log (intel_img_destroy (img_init handle dev info scanout) s) =
    sys_log s ++ [EvClose 0; EvMemFree None; EvBaseDestroy handle].
Proof.
  intros Hwsi. unfold intel_img_destroy. rewrite Hwsi. cbn.
  rewrite <- !app_assoc. reflexivity.
Qed.

End Destroy.

(** ** The driver on concrete inputs *)

(** C7. [xglSetFastClearColor] on the colour red: the call returns
    [XGL_SUCCESS], but what it stores in [clear_color] is the eight bytes of
    the pointer [color] followed by the eight bytes behind the parameter in
    the frame, not the sixteen bytes of the four components the caller
    passed. *)
Theorem C7_clear_color_stores_pointer :
  load red_memory color_ptr 16 = red_bytes /\
  fst (xglSetFastClearColor red_memory small_image color_ptr color_param) = XGL_SUCCESS /\
  clear_color (snd (xglSetFastClearColor red_memory small_image color_ptr color_param)) =
    le_bytes 8 color_ptr ++ repeat x00 8 /\
  clear_color (snd (xglSetFastClearColor red_memory small_image color_ptr color_param)) <>
    load red_memory color_ptr 16.
Proof.
  repeat split; try (vm_compute; reflexivity).
  vm_compute. discriminate.
Qed.

Lemma load_ext (m1 m2 : memory) (len : nat) (addr : N) :
  (forall a, addr <= a < addr + N.of_nat len -> m1 a = m2 a) ->
  load m1 addr len = load m2 addr len.
Proof.
  revert addr. induction len as [|len IH]; intros addr Hagree; [reflexivity|].
  cbn [load]. f_equal.
  - apply Hagree. lia.
  - apply IH. intros a Ha. apply Hagree. lia.
Qed.

(** The stored bytes do not depend on the array [color] points to. *)
Lemma xglSetFastClearColor_ignores_components (m1 m2 : memory) (img : intel_img)
    (color addr_of_color : N) :
  (forall a, addr_of_color + 8 <= a < addr_of_color + 16 -> m1 a = m2 a) ->
  xglSetFastClearColor m1 img color addr_of_color =
  xglSetFastClearColor m2 img color addr_of_color.
Proof.
  intros Hframe. unfold xglSetFastClearColor. do 4 f_equal.
  apply load_ext. intros a Ha. apply Hframe.
  unfold POINTER_SIZE, sizeof_float_4 in Ha. cbn in Ha. lia.
Qed.

(** C9. [intel_img_create], built with [ENABLE_WSI_X11], on the 262144 x 4096
    description: the capacity check fails and the image is destroyed before
    its hand-off descriptor is set to -1.  The stencil layout, absent, is not
    freed; but the destruction closes descriptor 0, which the image never
    owned, and frees the null memory object. *)
Theorem C9_destroy_before_handoff_init :
  s8_layout (@img_init (sample_collaborators true) 1 sample_dev big_info false) = None /\
  x11_prime_fd (@img_init (sample_collaborators true) 1 sample_dev big_info false) = 0%Z /\
  exists s',
    @intel_img_create (sample_collaborators true) sample_dev big_info false None
      (sample_sys 2) = Returned XGL_ERROR_INVALID_MEMORY_SIZE None s' /\
    sys_log s' =
      [EvLog "image too big"; EvClose 0; EvMemFree None; EvBaseDestroy 1].
Proof.
  split; [reflexivity|]. split; [reflexivity|].
  eexists. split; [vm_compute; reflexivity|]. reflexivity.
Qed.

(** C4, as stated, fails on the 256 x 0 description: the base object is
    allocated, the primary layout has height 0, and the call stops at the
    division of line 131: it returns no status, and the base object stays
    allocated.  It fails as well where the assertion of line 158 does: the
    call stops there, with the base object and the stencil storage
    allocated. *)
Lemma C4_counterexample_no_return :
  (bo_height (@intel_layout_init (sample_collaborators false) sample_dev flat_info false) = 0 /\
   @intel_img_create (sample_collaborators false) sample_dev flat_info false None
     (sample_sys 2) = Trapped DivisionByZero (sample_sys_created 1) /\
   forall ret img_ret s',
     @intel_img_create (sample_collaborators false) sample_dev flat_info false None
       (sample_sys 2) <> Returned ret img_ret s') /\
  (@intel_img_create no_ds_collaborators sample_dev ds_info false None
     (sample_sys 2) = Trapped AssertionFailed ds_sys /\
   forall ret img_ret s',
     @intel_img_create no_ds_collaborators sample_dev ds_info false None
       (sample_sys 2) <> Returned ret img_ret s').
Proof.
  assert (Hflat : @intel_img_create (sample_collaborators false) sample_dev flat_info
                    false None (sample_sys 2) =
                  Trapped DivisionByZero (sample_sys_created 1)) by reflexivity.
  assert (Hds : @intel_img_create no_ds_collaborators sample_dev ds_info
                  false None (sample_sys 2) =
                Trapped AssertionFailed ds_sys) by (vm_compute; reflexivity).
  rewrite Hflat, Hds. repeat split; intros ret img_ret s'; discriminate.
Qed.

(** ** The theorems at concrete inputs *)

(** The capacity check on the 262144 x 4096 description: the base object is
    allocated, the height is 4096, and the call reports the invalid size. *)
Lemma C1_capacity_check_witness :
  @intel_base_create (sample_sys 2) =
    Some (fresh (∅ : gset positive), sample_sys_created 1) /\
  1 <= bo_height (@intel_layout_init (sample_collaborators false) sample_dev big_info false) /\
  status (@intel_img_create (sample_collaborators false) sample_dev big_info false None
            (sample_sys 2)) = Some XGL_ERROR_INVALID_MEMORY_SIZE /\
  2 ^ 31 <
    bo_stride (@intel_layout_init (sample_collaborators false) sample_dev big_info false) *
    bo_height (@intel_layout_init (sample_collaborators false) sample_dev big_info false).
Proof.
  assert (Hbase : @intel_base_create (sample_sys 2) =
                  Some (fresh (∅ : gset positive), sample_sys_created 1))
    by reflexivity.
  assert (Hh : 1 <= bo_height (@intel_layout_init (sample_collaborators false)
                                 sample_dev big_info false))
    by (vm_compute; discriminate).
  destruct (@C1_capacity_check (sample_collaborators false) sample_dev big_info false
              None (sample_sys 2)) as [Hcheck _].
  destruct (Hcheck _ _ Hbase Hh) as [Hstatus Hexact].
  assert (Hfires : 2 ^ 31 /
                     bo_height (@intel_layout_init (sample_collaborators false)
                                  sample_dev big_info false) <
                   bo_stride (@intel_layout_init (sample_collaborators false)
                                sample_dev big_info false))
    by (vm_compute; reflexivity).
  split; [exact Hbase|]. split; [exact Hh|].
  split; [apply Hstatus; exact Hfires | apply Hexact; exact Hfires].
Defined.

(** The division on the 256 x 0 description. *)
Lemma C10_division_unguarded_witness :
  @intel_base_create (sample_sys 2) =
    Some (fresh (∅ : gset positive), sample_sys_created 1) /\
  bo_height (@intel_layout_init (sample_collaborators false) sample_dev flat_info false) = 0 /\
  @intel_img_create (sample_collaborators false) sample_dev flat_info false None
    (sample_sys 2) = Trapped DivisionByZero (sample_sys_created 1).
Proof.
  assert (Hbase : @intel_base_create (sample_sys 2) =
                  Some (fresh (∅ : gset positive), sample_sys_created 1))
    by reflexivity.
  assert (Hz : bo_height (@intel_layout_init (sample_collaborators false)
                            sample_dev flat_info false) = 0)
    by reflexivity.
  destruct (@C10_division_unguarded (sample_collaborators false) sample_dev flat_info
              false None _ _ _ Hbase) as [Hzero _].
  destruct (Hzero Hz) as (_ & Hrun & _).
  split; [exact Hbase|]. split; [exact Hz | exact Hrun].
Defined.

(** The packing of the 250 x 250 depth-stencil description: a primary
    region of 250000 bytes, an auxiliary region of 62500 bytes at 253952 and
    a stencil plane of 62500 bytes at 319488. *)
Lemma C2_total_size_packing_witness :
  @intel_img_create (sample_collaborators false) sample_dev ds_info false None
    (sample_sys 2) = Returned XGL_SUCCESS (Some ds_image) ds_sys /\
  regions_representable ds_image /\
  aux_offset ds_image = 253952 /\
  s8_offset ds_image = 319488 /\
  total_size ds_image = 250000 + 3952 + 62500 + 3036 + 62500.
Proof.
  assert (Hrun : @intel_img_create (sample_collaborators false) sample_dev ds_info
                   false None (sample_sys 2) =
                 Returned XGL_SUCCESS (Some ds_image) ds_sys)
    by (vm_compute; reflexivity).
  assert (Hrep : regions_representable ds_image)
    by (split; intros _; vm_compute; reflexivity).
  destruct (@C2_total_size_packing (sample_collaborators false) _ _ _ _ _ _ _ Hrun)
    as ((Haux & _) & Hexact).
  destruct (Hexact Hrep) as (Hs8 & Htot).
  split; [exact Hrun|]. split; [exact Hrep|].
  split; [rewrite (Haux eq_refl); vm_compute; reflexivity|].
  split; [rewrite (Hs8 eq_refl); vm_compute; reflexivity|].
  rewrite Htot. vm_compute. reflexivity.
Defined.

(** The regions of the same image: bases 0, 253952 and 319488. *)
Lemma C3_regions_aligned_disjoint_witness :
  @intel_img_create (sample_collaborators false) sample_dev ds_info false None
    (sample_sys 2) = Returned XGL_SUCCESS (Some ds_image) ds_sys /\
  regions_representable ds_image /\
  img_regions ds_image (aux_size ds_image) (s8_size ds_image) =
    [{| base := 0; size := 250000 |}; {| base := 253952; size := 62500 |};
     {| base := 319488; size := 62500 |}] /\
  Forall (fun r => base r mod 4096 = 0)
    (img_regions ds_image (aux_size ds_image) (s8_size ds_image)) /\
  ForallOrdPairs disjoint (img_regions ds_image (aux_size ds_image) (s8_size ds_image)).
Proof.
  assert (Hrun : @intel_img_create (sample_collaborators false) sample_dev ds_info
                   false None (sample_sys 2) =
                 Returned XGL_SUCCESS (Some ds_image) ds_sys)
    by (vm_compute; reflexivity).
  assert (Hrep : regions_representable ds_image)
    by (split; intros _; vm_compute; reflexivity).
  destruct (@C3_regions_aligned_disjoint (sample_collaborators false) _ _ _ _ _ _ _
              Hrun) as (_ & Hexact).
  destruct (Hexact Hrep) as (Halign & _ & Hdisj).
  split; [exact Hrun|]. split; [exact Hrep|].
  split; [vm_compute; reflexivity|]. split; [exact Halign | exact Hdisj].
Defined.

(** The stencil storage of the same description cannot be allocated when
    the heap has room for one block: the call reports out-of-memory and the
    heap is as before. *)
Lemma C4_create_atomic_witness :
  (avail (sys_heap (sample_sys 1)) <> O ->
   1 <= bo_height (@intel_layout_init (sample_collaborators true) sample_dev ds_info false)) /\
  (separate_stencil
     (@intel_layout_init (sample_collaborators true) sample_dev ds_info false) = true ->
   @icd_format_is_ds (sample_collaborators true) (format ds_info) = true) /\
  exists s',
    @intel_img_create (sample_collaborators true) sample_dev ds_info false None
      (sample_sys 1) = Returned XGL_ERROR_OUT_OF_MEMORY None s' /\
    sys_heap s' = sys_heap (sample_sys 1).
Proof.
  assert (Hh : avail (sys_heap (sample_sys 1)) <> O ->
               1 <= bo_height (@intel_layout_init (sample_collaborators true)
                                  sample_dev ds_info false))
    by (intros _; vm_compute; discriminate).
  assert (Hds : separate_stencil
                  (@intel_layout_init (sample_collaborators true) sample_dev ds_info
                     false) = true ->
                @icd_format_is_ds (sample_collaborators true) (format ds_info) = true)
    by (intros _; reflexivity).
  split; [exact Hh|]. split; [exact Hds|].
  destruct (@C4_create_atomic (sample_collaborators true) sample_dev ds_info false None
              (sample_sys 1) Hh Hds)
    as [(img & s' & Hrun & _) | [(s' & Hrun & Hheap & _) | (s' & Hrun & _)]].
  - vm_compute in Hrun. discriminate Hrun.
  - exists s'. split; [exact Hrun | exact Hheap].
  - vm_compute in Hrun. discriminate Hrun.
Defined.

(** A selector other than the subresource-layout kind. *)
Lemma C8_invalid_selector_witness :
  XGL_SUBRESOURCE_INFO_TYPE_other 7 <> XGL_INFO_TYPE_SUBRESOURCE_LAYOUT /\
  @xglGetImageSubresourceInfo (sample_collaborators true) small_image
    {| mipLevel := 0; arraySlice := 0 |} (XGL_SUBRESOURCE_INFO_TYPE_other 7) 5 None =
    (XGL_ERROR_INVALID_VALUE, small_image, 5, None).
Proof.
  assert (Hkind : XGL_SUBRESOURCE_INFO_TYPE_other 7 <> XGL_INFO_TYPE_SUBRESOURCE_LAYOUT)
    by discriminate.
  split; [exact Hkind|].
  exact (@C8_invalid_selector (sample_collaborators true) small_image
           {| mipLevel := 0; arraySlice := 0 |} _ 5 None Hkind).
Defined.

(** The memory requirements of a linear image and of a tiled one. *)
Lemma C6_memory_requirements_witness :
  format_class linear_image = XGL_IMAGE_FORMAT_CLASS_LINEAR /\
  format_class small_image <> XGL_IMAGE_FORMAT_CLASS_LINEAR /\
  (exists mem_req,
     @img_get_info (sample_collaborators true) linear_image
       XGL_INFO_TYPE_MEMORY_REQUIREMENTS 0 (Some (data_raw [])) =
       (XGL_SUCCESS, 24, Some (data_MEMORY_REQUIREMENTS mem_req)) /\
     mr_memType mem_req = XGL_MEMORY_TYPE_BUFFER) /\
  (exists mem_req,
     @img_get_info (sample_collaborators true) small_image
       XGL_INFO_TYPE_MEMORY_REQUIREMENTS 0 (Some (data_raw [])) =
       (XGL_SUCCESS, 24, Some (data_MEMORY_REQUIREMENTS mem_req)) /\
     mr_memType mem_req = XGL_MEMORY_TYPE_IMAGE).
Proof.
  assert (Hlin : format_class linear_image = XGL_IMAGE_FORMAT_CLASS_LINEAR)
    by reflexivity.
  assert (Htiled : format_class small_image <> XGL_IMAGE_FORMAT_CLASS_LINEAR)
    by discriminate.
  split; [exact Hlin|]. split; [exact Htiled|]. split.
  - destruct (@C6_memory_requirements (sample_collaborators true) linear_image 0
                (data_raw [])) as [(mem_req & Hrun & _ & _ & Hbuffer & _) _].
    exists mem_req. split; [exact Hrun | exact (Hbuffer Hlin)].
  - destruct (@C6_memory_requirements (sample_collaborators true) small_image 0
                (data_raw [])) as [(mem_req & Hrun & _ & _ & _ & Himage) _].
    exists mem_req. split; [exact Hrun | exact (Himage Htiled)].
Defined.

(** ** Further properties of the driver *)

Section Lifecycle.
Context `{Collaborators}.

(** *** Destruction *)

(** X1. [intel_img_destroy] releases exactly the heap blocks of the image,
    its base object and, when present, its stencil layout; it frees the
    stencil layout before it destroys the base object; and what it does to
    the hand-off descriptor comes first and is nothing when the descriptor
    is negative. *)
Theorem X1_destroy_releases_blocks (img : intel_img) (s : sys) :
  live (sys_heap (intel_img_destroy img s)) = live (sys_heap s) ∖ img_blocks img /\
  avail (sys_heap (intel_img_destroy img s)) =
    (avail (sys_heap s) + if has_s8 img then 2 else 1)%nat /\
  exists handoff,
    sys_log (intel_img_destroy img s) =
      sys_log s ++ handoff ++
      match s8_layout img with
      | Some (p, _) => [EvFree p]
      | None => []
      end ++ [EvBaseDestroy (obj_handle img)] /\
    (forall e, In e handoff ->
       e = EvClose (x11_prime_fd img) \/ e = EvMemFree (obj_mem img)) /\
    ((x11_prime_fd img < 0)%Z -> handoff = []).
Proof.
  unfold intel_img_destroy, img_blocks, has_s8.
  assert (Hset : forall (L : gset positive) (p h : positive),
            L ∖ {[p]} ∖ {[h]} = L ∖ ({[h]} ∪ {[p]})).
  { intros L p h. apply set_eq. intros x.
    rewrite !elem_of_difference, elem_of_union, !elem_of_singleton. tauto. }
  assert (Hset0 : forall (L : gset positive) (h : positive),
            L ∖ {[h]} = L ∖ ({[h]} ∪ ∅)).
  { intros L h. rewrite union_empty_r_L. reflexivity. }
  destruct ENABLE_WSI_X11; [destruct (Z.leb_spec 0 (x11_prime_fd img)) as [Hfd | Hfd]|];
    destruct (s8_layout img) as [[p l]|]; cbn;
    (split; [auto|]); (split; [lia|]).
  1,2: exists [EvClose (x11_prime_fd img); EvMemFree (obj_mem img)].
  3,4,5,6: exists [].
  all: cbn; rewrite <- ?app_assoc; cbn; repeat split; try tauto; try lia.
  all: intros e [<- | [<- | []]]; auto.
Qed.

Lemma destroy_finished (img : intel_img) (s : sys) :
  intel_img_destroy (img_finish img) s =
  intel_base_destroy (obj_handle img)
    match s8_layout img with
    | Some (p, _) => intel_free p s
    | None => s
    end.
Proof.
  unfold intel_img_destroy, img_finish. destruct ENABLE_WSI_X11; reflexivity.
Qed.

(** X2. Creation and destruction compose to nothing on the heap: after a
    successful [intel_img_create], [intel_img_destroy] of the stored image
    leaves the heap as it was before the creation.  The destruction frees the
    stencil layout, if any, and the base object, and touches no
    descriptor. *)
Theorem X2_create_destroy_round_trip (dev : intel_dev) (info : XGL_IMAGE_CREATE_INFO)
    (scanout : bool) (img_ret : option intel_img) (s s' : sys) (img : intel_img) :
  intel_img_create dev info scanout img_ret s = Returned XGL_SUCCESS (Some img) s' ->
  sys_heap (intel_img_destroy img s') = sys_heap s /\
  sys_log (intel_img_destroy img s') =
    sys_log s ++
    match s8_layout img with
    | Some (p, _) => [EvFree p]
    | None => []
    end ++ [EvBaseDestroy (obj_handle img)].
Proof.
  intros Hrun.
  apply create_success_inv in Hrun as (handle & s1 & Hbase & _ & _ & Hcases).
  destruct (img_packed_fields handle dev info scanout) as (_ & Ps8 & Ph).
  pose proof (heap_alloc_Some _ _ _ Hbase) as (Hfresh & Havail & Hlive & Hlog).
  destruct Hcases as [(_ & -> & ->) | (_ & _ & p & Halloc & ->)].
  - destruct (img_finish_fields (img_packed handle dev info scanout))
      as (_ & Fs8 & _ & _ & _ & Fh).
    rewrite Fs8, Fh, Ps8, Ph. split.
    + eapply destroy_after_create; [|congruence|reflexivity]. rewrite Fh, Ph.
      exact Hbase.
    + rewrite destroy_finished, Ps8, Ph. cbn. rewrite Hlog. reflexivity.
  - pose proof (heap_alloc_Some _ _ _ Halloc) as (Hfresh2 & Havail2 & Hlive2 & Hlog2).
    match goal with |- context [img_finish ?i] =>
      destruct (img_finish_fields i) as (_ & Fs8 & _ & _ & _ & Fh) end.
    rewrite Fs8, Fh, destroy_finished. cbn. rewrite Ph. split.
    + apply heap_eq; cbn; [|lia].
      rewrite Hlive2, Hlive.
      pose proof (is_fresh (live (sys_heap s))) as Hnew.
      pose proof (is_fresh (live (sys_heap s1))) as Hnew2.
      rewrite <- Hfresh in Hnew. rewrite <- Hfresh2, Hlive in Hnew2.
      apply set_eq. intros x.
      rewrite !elem_of_difference, !elem_of_union, !elem_of_singleton.
      rewrite elem_of_union, elem_of_singleton in Hnew2.
      split; [tauto|]. intros Hx.
      repeat split; [tauto | |]; intros ->; tauto.
    + rewrite <- app_assoc. cbn. congruence.
Qed.

End Lifecycle.

Section Outcomes.
Context `{Collaborators}.

(** *** The ways [intel_img_create] returns *)

Lemma img_packed_handoff (handle : positive) (dev : intel_dev)
    (info : XGL_IMAGE_CREATE_INFO) (scanout : bool) :
  x11_prime_fd (img_packed handle dev info scanout) = 0%Z /\
  obj_mem (img_packed handle dev info scanout) = None.
Proof.
  unfold img_packed, img_pack_aux. cbn [layout img_init set_total_size].
  destruct (aux (intel_layout_init dev info scanout)); split; reflexivity.
Qed.

(** The events of destroying an image that has not reached line 171. *)
Lemma destroy_partial_log (img : intel_img) (s : sys) :
  s8_layout img = None -> x11_prime_fd img = 0%Z -> obj_mem img = None ->
  sys_log (intel_img_destroy img s) =
    sys_log s ++
    (if ENABLE_WSI_X11 then [EvClose 0; EvMemFree None] else []) ++
    [EvBaseDestroy (obj_handle img)].
Proof.
  intros Hs8 Hfd Hmem. unfold intel_img_destroy. rewrite Hs8, Hfd, Hmem.
  destruct ENABLE_WSI_X11; cbn; rewrite <- ?app_assoc; reflexivity.
Qed.

(** Every returning call took one of four paths. *)
Lemma create_returned_inv (dev : intel_dev) (info : XGL_IMAGE_CREATE_INFO)
    (scanout : bool) (img_ret img_ret' : option intel_img) (s s' : sys)
    (ret : XGL_RESULT) :
  intel_img_create dev info scanout img_ret s = Returned ret img_ret' s' ->
  (intel_base_create s = None /\
   ret = XGL_ERROR_OUT_OF_MEMORY /\ img_ret' = img_ret /\ s' = s) \/
  (exists handle s1,
     intel_base_create s = Some (handle, s1) /\
     ret = XGL_ERROR_INVALID_MEMORY_SIZE /\ img_ret' = img_ret /\
     s' = intel_img_destroy (img_init handle dev info scanout)
            (intel_dev_log "image too big" s1)) \/
  (exists handle s1,
     intel_base_create s = Some (handle, s1) /\
     intel_alloc s1 = None /\
     ret = XGL_ERROR_OUT_OF_MEMORY /\ img_ret' = img_ret /\
     s' = intel_img_destroy
            (set_s8_layout None (img_packed handle dev info scanout)) s1) \/
  (exists img,
     ret = XGL_SUCCESS /\ img_ret' = Some img /\ sys_log s' = sys_log s).
Proof.
  intros Hrun. destruct ret.
  1:{ right. right. right. destruct img_ret' as [img|].
      - exists img. repeat split.
        apply create_success_inv in Hrun as (handle & s1 & Hbase & _ & _ & Hcases).
        apply heap_alloc_Some in Hbase as (_ & _ & _ & Hlog).
        destruct Hcases as [(_ & _ & ->) | (_ & _ & p & Halloc & _)]; [exact Hlog|].
        apply heap_alloc_Some in Halloc as (_ & _ & _ & Hlog2). congruence.
      - exfalso. revert Hrun. unfold intel_img_create, img_publish.
        destruct (intel_base_create s) as [[handle s1]|]; [|discriminate].
        destruct (size_div _ _); [|discriminate].
        destruct (_ <? _); [discriminate|].
        destruct (separate_stencil _); [|discriminate].
        destruct (intel_alloc s1) as [[p s2]|]; [|discriminate].
        destruct (icd_format_is_ds _); discriminate. }
  all: revert Hrun; unfold intel_img_create, img_publish;
    destruct (intel_base_create s) as [[handle s1]|] eqn:Hbase;
    [|intros [= <- <-] || discriminate; left; auto];
    destruct (size_div _ _); [|discriminate];
    destruct (_ <? _);
    [intros [= <- <-] || discriminate; right; left; exists handle, s1; auto|];
    destruct (separate_stencil _); [|discriminate];
    destruct (intel_alloc s1) as [[p s2]|] eqn:Halloc;
    [destruct (icd_format_is_ds _); discriminate|];
    intros [= <- <-] || discriminate;
    right; right; left; exists handle, s1; auto.
Qed.

(** X3. [intel_img_create] returns no status but [XGL_SUCCESS],
    [XGL_ERROR_OUT_OF_MEMORY] and [XGL_ERROR_INVALID_MEMORY_SIZE]; it writes
    [*img_ret] exactly when it returns [XGL_SUCCESS]; and on an exhausted
    heap it returns [XGL_ERROR_OUT_OF_MEMORY] at once, whatever the
    description, leaving the whole system as it was. *)
Theorem X3_create_status (dev : intel_dev) (info : XGL_IMAGE_CREATE_INFO)
    (scanout : bool) (img_ret : option intel_img) (s : sys) :
  (avail (sys_heap s) = O ->
   intel_img_create dev info scanout img_ret s =
     Returned XGL_ERROR_OUT_OF_MEMORY img_ret s) /\
  (forall ret img_ret' s',
     intel_img_create dev info scanout img_ret s = Returned ret img_ret' s' ->
     (ret = XGL_SUCCESS /\ exists img, img_ret' = Some img) \/
     ((ret = XGL_ERROR_OUT_OF_MEMORY \/ ret = XGL_ERROR_INVALID_MEMORY_SIZE) /\
      img_ret' = img_ret)).
Proof.
  split.
  - intros Hfull. apply heap_alloc_None in Hfull.
    unfold intel_img_create, intel_base_create. rewrite Hfull. reflexivity.
  - intros ret img_ret' s' Hrun.
    apply create_returned_inv in Hrun
      as [(_ & -> & -> & _) | [(h & s1 & _ & -> & -> & _)
         | [(h & s1 & _ & _ & -> & -> & _) | (img & -> & -> & _)]]]; eauto.
Qed.


(** X5. A call that fails after the base object was allocated, on the
    capacity check or on the stencil storage, ends by destroying the image
    as line 129 left it: in a build with [ENABLE_WSI_X11] it closes
    descriptor 0 and frees the null memory object before it destroys the
    base object; in a build without, it only destroys the base object. *)
Theorem X5_failure_events (dev : intel_dev) (info : XGL_IMAGE_CREATE_INFO)
    (scanout : bool) (img_ret img_ret' : option intel_img) (s s1 s' : sys)
    (handle : positive) (ret : XGL_RESULT) :
  intel_base_create s = Some (handle, s1) ->
  intel_img_create dev info scanout img_ret s = Returned ret img_ret' s' ->
  ret <> XGL_SUCCESS ->
  sys_log s' =
    sys_log s ++
    (if ENABLE_WSI_X11
     then (match ret with
           | XGL_ERROR_INVALID_MEMORY_SIZE => [EvLog "image too big"]
           | _ => []
           end) ++ [EvClose 0; EvMemFree None; EvBaseDestroy handle]
     else (match ret with
           | XGL_ERROR_INVALID_MEMORY_SIZE => [EvLog "image too big"]
           | _ => []
           end) ++ [EvBaseDestroy handle]).
Proof.
  intros Hbase Hrun Hfail.
  pose proof (heap_alloc_Some _ _ _ Hbase) as (_ & _ & _ & Hlog).
  destruct (img_packed_fields handle dev info scanout) as (_ & _ & Ph).
  destruct (img_packed_handoff handle dev info scanout) as [Hfd Hmem].
  apply create_returned_inv in Hrun
    as [(Hnone & _) | [(h & s2 & Hbase' & -> & _ & ->)
       | [(h & s2 & Hbase' & _ & -> & _ & ->) | (img & -> & _)]]].
  - congruence.
  - rewrite Hbase in Hbase'. injection Hbase' as <- <-.
    rewrite destroy_partial_log by reflexivity. cbn [intel_dev_log emit sys_log].
    rewrite Hlog, <- app_assoc. cbn [img_init obj_handle].
    destruct ENABLE_WSI_X11; reflexivity.
  - rewrite Hbase in Hbase'. injection Hbase' as <- <-.
    rewrite destroy_partial_log by (try reflexivity; assumption).
    rewrite Hlog. cbn [set_s8_layout obj_handle]. rewrite Ph.
    destruct ENABLE_WSI_X11; reflexivity.
  - contradiction.
Qed.

End Outcomes.

Section Reports.
Context `{Collaborators}.

(** *** The image a successful call stores *)

Lemma create_success_populated (dev : intel_dev) (info : XGL_IMAGE_CREATE_INFO)
    (scanout : bool) (img_ret : option intel_img) (s s' : sys) (img : intel_img) :
  intel_img_create dev info scanout img_ret s = Returned XGL_SUCCESS (Some img) s' ->
  populated dev info scanout img.
Proof.
  intros Hrun.
  apply create_success_inv in Hrun as (handle & s1 & _ & _ & _ & Hcases).
  destruct (img_packed_fields handle dev info scanout) as (_ & Ps8 & _).
  destruct Hcases as [(Hsep & -> & _) | (Hsep & _ & p & _ & ->)].
  - destruct (img_finish_fields (img_packed handle dev info scanout))
      as (_ & Fs8 & _).
    apply (img_packed_populated handle); try reflexivity.
    rewrite Hsep, Fs8. exact Ps8.
  - match goal with |- populated _ _ _ (img_finish ?i) =>
      destruct (img_finish_fields i) as (_ & Fs8 & _) end.
    apply (img_packed_populated handle); try reflexivity.
    rewrite Hsep, Fs8. exists p. reflexivity.
Qed.

(** X6. In every successfully created image the regions lie inside the
    allocation: the primary size is not above [total_size], every present
    region ends at or before [total_size], with the sizes as the driver
    computes them, and [total_size] stays below [2^34], far from the range
    of [size_t]. *)
Theorem X6_regions_within_total (dev : intel_dev) (info : XGL_IMAGE_CREATE_INFO)
    (scanout : bool) (img_ret : option intel_img) (s s' : sys) (img : intel_img) :
  intel_img_create dev info scanout img_ret s = Returned XGL_SUCCESS (Some img) s' ->
  primary_size img <= total_size img /\
  total_size img < 2 ^ 34 /\
  Forall (fun r => base r + size r <= total_size img)
    (img_regions img (aux_size_computed img) (s8_size_computed img)).
Proof.
  intros Hrun.
  apply create_success_footprint in Hrun as (Hle & _ & Haux & Hs8 & Htot).
  assert (Hp : 2 ^ 31 + 4096 + 2 ^ 32 + 4096 + 2 ^ 32 < 2 ^ 34) by reflexivity.
  destruct (u_align_spec (primary_size img) 4096) as (_ & Pge & Plt); [discriminate|].
  destruct (u_align_spec (packed_after_aux img (aux_size_computed img)) 4096)
    as (_ & Sge & Slt); [discriminate|].
  assert (Ha : aux_size_computed img < 2 ^ 32) by apply umul_bound.
  assert (Hs : s8_size_computed img < 2 ^ 32).
  { unfold s8_size_computed. destruct (s8_layout img) as [[p l]|];
      [apply umul_bound | reflexivity]. }
  unfold img_regions, packed_total, packed_after_aux in *.
  destruct (has_aux img), (has_s8 img); cbn [app];
    rewrite ?(Haux eq_refl), ?(Hs8 eq_refl), Htot in *;
    (split; [lia|]); (split; [lia|]); repeat constructor; cbn; lia.
Qed.

(** *** Requirement queries on a created image *)

(** X7. An image created from a description with linear tiling is
    classified as linear whatever its format, and its memory requirements
    name the buffer memory type, with its [total_size] and the alignment
    4096. *)
Theorem X7_linear_tiling_is_buffer (dev : intel_dev) (info : XGL_IMAGE_CREATE_INFO)
    (scanout : bool) (img_ret : option intel_img) (s s' : sys) (img : intel_img)
    (size : N) (buf : info_data) :
  intel_img_create dev info scanout img_ret s = Returned XGL_SUCCESS (Some img) s' ->
  tiling info = XGL_LINEAR_TILING ->
  format_class img = XGL_IMAGE_FORMAT_CLASS_LINEAR /\
  img_get_info img XGL_INFO_TYPE_MEMORY_REQUIREMENTS size (Some buf) =
    (XGL_SUCCESS, sizeof_XGL_MEMORY_REQUIREMENTS,
     Some (data_MEMORY_REQUIREMENTS
             {| mr_size := total_size img; mr_alignment := 4096;
                mr_memType := XGL_MEMORY_TYPE_BUFFER |})).
Proof.
  intros Hrun Hlinear.
  apply create_success_populated in Hrun as (_ & _ & _ & _ & _ & Hclass & _).
  rewrite Hlinear in Hclass. split; [exact Hclass|].
  unfold img_get_info. rewrite Hclass. reflexivity.
Qed.

(** X8. The image-specific and buffer-specific requirement queries on a
    created image give back the description: its usage flags, its sample
    count, and the class its tiling and format have. *)
Theorem X8_requirements_echo_description (dev : intel_dev)
    (info : XGL_IMAGE_CREATE_INFO) (scanout : bool) (img_ret : option intel_img)
    (s s' : sys) (img : intel_img) (size : N) (buf : info_data) :
  intel_img_create dev info scanout img_ret s = Returned XGL_SUCCESS (Some img) s' ->
  img_get_info img XGL_INFO_TYPE_IMAGE_MEMORY_REQUIREMENTS size (Some buf) =
    (XGL_SUCCESS, sizeof_XGL_IMAGE_MEMORY_REQUIREMENTS,
     Some (data_IMAGE_MEMORY_REQUIREMENTS
             {| ir_usage := usage info;
                ir_formatClass :=
                  match tiling info with
                  | XGL_LINEAR_TILING => XGL_IMAGE_FORMAT_CLASS_LINEAR
                  | XGL_OPTIMAL_TILING => icd_format_get_class (format info)
                  end;
                ir_samples := samples info |})) /\
  img_get_info img XGL_INFO_TYPE_BUFFER_MEMORY_REQUIREMENTS size (Some buf) =
    (XGL_SUCCESS, sizeof_XGL_BUFFER_MEMORY_REQUIREMENTS,
     Some (data_BUFFER_MEMORY_REQUIREMENTS {| br_usage := usage info |})).
Proof.
  intros Hrun.
  apply create_success_populated in Hrun
    as (_ & _ & _ & _ & Husage & Hclass & Hsamples & _).
  unfold img_get_info. rewrite Husage, Hclass, Hsamples. split; reflexivity.
Qed.

(** *** The two phases of a query *)

(** X9. For the three kinds [img_get_info] answers itself, the call without
    a buffer and the call with one succeed and report the same size; the
    size does not depend on what [*size] held, and the answer does not depend
    on what the buffer held. *)
Theorem X9_two_phase_query (img : intel_img) (type : XGL_INFO_TYPE)
    (size size' : N) (buf buf' : info_data) :
  (forall code, type <> XGL_INFO_TYPE_other code) ->
  exists n answer,
    img_get_info img type size None = (XGL_SUCCESS, n, None) /\
    img_get_info img type size' (Some buf) = (XGL_SUCCESS, n, Some answer) /\
    img_get_info img type size (Some buf') = (XGL_SUCCESS, n, Some answer).
Proof.
  intros Hkind. destruct type as [| | |code].
  4: exfalso; exact (Hkind code eq_refl).
  all: do 2 eexists; repeat split.
Qed.

(** *** Fast-clear metadata and the footprint *)

(** X10. The fast-clear setters do not disturb the footprint: after
    [xglSetFastClearDepth] or [xglSetFastClearColor] the three requirement
    queries and the subresource query answer as before.
    [xglSetFastClearDepth] stores the depth it is given and leaves the clear
    colour; [xglSetFastClearColor] leaves the clear depth. *)
Theorem X10_fast_clear_keeps_footprint (m : memory) (img : intel_img)
    (color addr_of_color depth : N) (type : XGL_INFO_TYPE) (size : N)
    (data : option info_data) (sub : XGL_IMAGE_SUBRESOURCE)
    (infoType : XGL_SUBRESOURCE_INFO_TYPE) (pDataSize : N)
    (pData : option XGL_SUBRESOURCE_LAYOUT) :
  (forall code, type <> XGL_INFO_TYPE_other code) ->
  (img_get_info (snd (xglSetFastClearDepth img depth)) type size data =
     img_get_info img type size data /\
   img_get_info (snd (xglSetFastClearColor m img color addr_of_color)) type size data =
     img_get_info img type size data) /\
  (subresource_reply
     (xglGetImageSubresourceInfo (snd (xglSetFastClearDepth img depth))
        sub infoType pDataSize pData) =
     subresource_reply (xglGetImageSubresourceInfo img sub infoType pDataSize pData) /\
   subresource_reply
     (xglGetImageSubresourceInfo (snd (xglSetFastClearColor m img color addr_of_color))
        sub infoType pDataSize pData) =
     subresource_reply (xglGetImageSubresourceInfo img sub infoType pDataSize pData)) /\
  (clear_depth (snd (xglSetFastClearDepth img depth)) = depth /\
   clear_color (snd (xglSetFastClearDepth img depth)) = clear_color img /\
   clear_depth (snd (xglSetFastClearColor m img color addr_of_color)) = clear_depth img).
Proof.
  intros Hkind. split; [|split].
  - destruct type as [| | |code]; [| | |exfalso; exact (Hkind code eq_refl)];
      split; reflexivity.
  - unfold xglGetImageSubresourceInfo, xglSetFastClearDepth, xglSetFastClearColor.
    cbn [snd layout set_clear_depth set_clear_color].
    destruct infoType as [|code]; [|split; reflexivity].
    destruct (intel_layout_get_slice_pos _ _ _) as [x y].
    destruct (intel_layout_pos_to_mem _ _ _) as [mx my].
    destruct pData; split; reflexivity.
  - repeat split.
Qed.

(** *** Subresources of one mip level *)

(** X11. The size, the row pitch and the depth pitch the subresource-layout
    query reports depend on the mip level only: two array slices of one mip
    level get the same three values, and all subresources of an image get the
    same row pitch. *)
Theorem X11_pitches_by_mip_level (img : intel_img) (sub1 sub2 : XGL_IMAGE_SUBRESOURCE)
    (size1 size2 : N) (buf1 buf2 out1 out2 : XGL_SUBRESOURCE_LAYOUT) :
  subresource_reply
    (xglGetImageSubresourceInfo img sub1 XGL_INFO_TYPE_SUBRESOURCE_LAYOUT
       size1 (Some buf1)) =
    (XGL_SUCCESS, sizeof_XGL_SUBRESOURCE_LAYOUT, Some out1) ->
  subresource_reply
    (xglGetImageSubresourceInfo img sub2 XGL_INFO_TYPE_SUBRESOURCE_LAYOUT
       size2 (Some buf2)) =
    (XGL_SUCCESS, sizeof_XGL_SUBRESOURCE_LAYOUT, Some out2) ->
  sl_rowPitch out1 = sl_rowPitch out2 /\
  (mipLevel sub1 = mipLevel sub2 ->
   sl_size out1 = sl_size out2 /\ sl_depthPitch out1 = sl_depthPitch out2).
Proof.
  unfold xglGetImageSubresourceInfo.
  destruct (intel_layout_get_slice_pos (layout img) (mipLevel sub1) (arraySlice sub1))
    as [x1 y1].
  destruct (intel_layout_get_slice_pos (layout img) (mipLevel sub2) (arraySlice sub2))
    as [x2 y2].
  destruct (intel_layout_pos_to_mem (layout img) x1 y1) as [mx1 my1].
  destruct (intel_layout_pos_to_mem (layout img) x2 y2) as [mx2 my2].
  cbn. intros [= <-] [= <-]. cbn. split; [reflexivity|].
  intros ->. split; reflexivity.
Qed.

End Reports.

Section Stencil.
Context `{Collaborators}.


End Stencil.

(** ** The further properties at concrete inputs *)

Lemma X2_create_destroy_round_trip_witness :
  @intel_img_create (sample_collaborators false) sample_dev ds_info false None
    (sample_sys 2) = Returned XGL_SUCCESS (Some ds_image) ds_sys /\
  sys_heap (@intel_img_destroy (sample_collaborators false) ds_image ds_sys) =
    sys_heap (sample_sys 2) /\
  sys_log (@intel_img_destroy (sample_collaborators false) ds_image ds_sys) =
    [EvFree 2; EvBaseDestroy 1].
Proof.
  assert (Hrun : @intel_img_create (sample_collaborators false) sample_dev ds_info
                   false None (sample_sys 2) =
                 Returned XGL_SUCCESS (Some ds_image) ds_sys)
    by (vm_compute; reflexivity).
  destruct (@X2_create_destroy_round_trip (sample_collaborators false) _ _ _ _ _ _ _
              Hrun) as [Hheap Hlog].
  split; [exact Hrun|]. split; [exact Hheap | exact Hlog].
Defined.

Lemma X3_create_status_witness :
  avail (sys_heap (sample_sys 0)) = O /\
  @intel_img_create (sample_collaborators true) sample_dev flat_info false None
    (sample_sys 0) = Returned XGL_ERROR_OUT_OF_MEMORY None (sample_sys 0).
Proof.
  assert (Hfull : avail (sys_heap (sample_sys 0)) = O) by reflexivity.
  split; [exact Hfull|].
  exact (proj1 (@X3_create_status (sample_collaborators true) sample_dev flat_info
                  false None (sample_sys 0)) Hfull).
Defined.


Lemma X5_failure_events_witness :
  @intel_base_create (sample_sys 1) =
    Some (fresh (∅ : gset positive), sample_sys_created 0) /\
  exists s',
    @intel_img_create (sample_collaborators true) sample_dev ds_info false None
      (sample_sys 1) = Returned XGL_ERROR_OUT_OF_MEMORY None s' /\
    XGL_ERROR_OUT_OF_MEMORY <> XGL_SUCCESS /\
    sys_log s' = [EvClose 0; EvMemFree None; EvBaseDestroy 1].
Proof.
  assert (Hbase : @intel_base_create (sample_sys 1) =
                  Some (fresh (∅ : gset positive), sample_sys_created 0))
    by reflexivity.
  assert (Hrun : exists s',
            @intel_img_create (sample_collaborators true) sample_dev ds_info false
              None (sample_sys 1) = Returned XGL_ERROR_OUT_OF_MEMORY None s')
    by (eexists; vm_compute; reflexivity).
  assert (Hfail : XGL_ERROR_OUT_OF_MEMORY <> XGL_SUCCESS) by discriminate.
  split; [exact Hbase|].
  destruct Hrun as [s' Hrun]. exists s'. split; [exact Hrun|]. split; [exact Hfail|].
  exact (@X5_failure_events (sample_collaborators true) _ _ _ _ _ _ _ _ _ _
           Hbase Hrun Hfail).
Defined.

Lemma X6_regions_within_total_witness :
  @intel_img_create (sample_collaborators false) sample_dev ds_info false None
    (sample_sys 2) = Returned XGL_SUCCESS (Some ds_image) ds_sys /\
  primary_size ds_image <= total_size ds_image /\
  total_size ds_image < 2 ^ 34.
Proof.
  assert (Hrun : @intel_img_create (sample_collaborators false) sample_dev ds_info
                   false None (sample_sys 2) =
                 Returned XGL_SUCCESS (Some ds_image) ds_sys)
    by (vm_compute; reflexivity).
  destruct (@X6_regions_within_total (sample_collaborators false) _ _ _ _ _ _ _ Hrun)
    as (Hle & Hlt & _).
  split; [exact Hrun|]. split; [exact Hle | exact Hlt].
Defined.

Lemma X7_linear_tiling_is_buffer_witness :
  @intel_img_create (sample_collaborators true) sample_dev linear_info false None
    (sample_sys 2) = Returned XGL_SUCCESS (Some linear_created) (sample_sys_created 1) /\
  tiling linear_info = XGL_LINEAR_TILING /\
  @img_get_info (sample_collaborators true) linear_created
    XGL_INFO_TYPE_MEMORY_REQUIREMENTS 0 (Some (data_raw [])) =
    (XGL_SUCCESS, 24,
     Some (data_MEMORY_REQUIREMENTS
             {| mr_size := 16384; mr_alignment := 4096;
                mr_memType := XGL_MEMORY_TYPE_BUFFER |})).
Proof.
  assert (Hrun : @intel_img_create (sample_collaborators true) sample_dev linear_info
                   false None (sample_sys 2) =
                 Returned XGL_SUCCESS (Some linear_created) (sample_sys_created 1))
    by (vm_compute; reflexivity).
  assert (Hlinear : tiling linear_info = XGL_LINEAR_TILING) by reflexivity.
  split; [exact Hrun|]. split; [exact Hlinear|].
  exact (proj2 (@X7_linear_tiling_is_buffer (sample_collaborators true) _ _ _ _ _ _ _
                  0 (data_raw []) Hrun Hlinear)).
Defined.

Lemma X8_requirements_echo_description_witness :
  @intel_img_create (sample_collaborators true) sample_dev linear_info false None
    (sample_sys 2) = Returned XGL_SUCCESS (Some linear_created) (sample_sys_created 1) /\
  @img_get_info (sample_collaborators true) linear_created
    XGL_INFO_TYPE_IMAGE_MEMORY_REQUIREMENTS 0 (Some (data_raw [])) =
    (XGL_SUCCESS, 12,
     Some (data_IMAGE_MEMORY_REQUIREMENTS
             {| ir_usage := 5; ir_formatClass := XGL_IMAGE_FORMAT_CLASS_LINEAR;
                ir_samples := 1 |})) /\
  @img_get_info (sample_collaborators true) linear_created
    XGL_INFO_TYPE_BUFFER_MEMORY_REQUIREMENTS 0 (Some (data_raw [])) =
    (XGL_SUCCESS, 4, Some (data_BUFFER_MEMORY_REQUIREMENTS {| br_usage := 5 |})).
Proof.
  assert (Hrun : @intel_img_create (sample_collaborators true) sample_dev linear_info
                   false None (sample_sys 2) =
                 Returned XGL_SUCCESS (Some linear_created) (sample_sys_created 1))
    by (vm_compute; reflexivity).
  split; [exact Hrun|].
  exact (@X8_requirements_echo_description (sample_collaborators true) _ _ _ _ _ _ _
           0 (data_raw []) Hrun).
Defined.

Lemma X9_two_phase_query_witness :
  (forall code, XGL_INFO_TYPE_IMAGE_MEMORY_REQUIREMENTS <> XGL_INFO_TYPE_other code) /\
  exists n answer,
    @img_get_info (sample_collaborators true) small_image
      XGL_INFO_TYPE_IMAGE_MEMORY_REQUIREMENTS 0 None = (XGL_SUCCESS, n, None) /\
    @img_get_info (sample_collaborators true) small_image
      XGL_INFO_TYPE_IMAGE_MEMORY_REQUIREMENTS 99 (Some (data_raw [])) =
      (XGL_SUCCESS, n, Some answer) /\
    @img_get_info (sample_collaborators true) small_image
      XGL_INFO_TYPE_IMAGE_MEMORY_REQUIREMENTS 0 (Some (data_raw [x01])) =
      (XGL_SUCCESS, n, Some answer).
Proof.
  assert (Hkind : forall code,
            XGL_INFO_TYPE_IMAGE_MEMORY_REQUIREMENTS <> XGL_INFO_TYPE_other code)
    by (intros code; discriminate).
  split; [exact Hkind|].
  exact (@X9_two_phase_query (sample_collaborators true) small_image _ 0 99
           (data_raw []) (data_raw [x01]) Hkind).
Defined.

Lemma X10_fast_clear_keeps_footprint_witness :
  (forall code, XGL_INFO_TYPE_MEMORY_REQUIREMENTS <> XGL_INFO_TYPE_other code) /\
  @img_get_info (sample_collaborators true)
    (snd (xglSetFastClearColor red_memory small_image color_ptr color_param))
    XGL_INFO_TYPE_MEMORY_REQUIREMENTS 0 (Some (data_raw [])) =
  @img_get_info (sample_collaborators true) small_image
    XGL_INFO_TYPE_MEMORY_REQUIREMENTS 0 (Some (data_raw [])) /\
  clear_depth (snd (xglSetFastClearDepth small_image 1065353216)) = 1065353216.
Proof.
  assert (Hkind : forall code,
            XGL_INFO_TYPE_MEMORY_REQUIREMENTS <> XGL_INFO_TYPE_other code)
    by (intros code; discriminate).
  destruct (@X10_fast_clear_keeps_footprint (sample_collaborators true) red_memory
              small_image color_ptr color_param 1065353216
              XGL_INFO_TYPE_MEMORY_REQUIREMENTS 0 (Some (data_raw []))
              {| mipLevel := 0; arraySlice := 0 |} XGL_INFO_TYPE_SUBRESOURCE_LAYOUT
              0 None Hkind) as ((_ & Hcolor) & _ & (Hdepth & _)).
  split; [exact Hkind|]. split; [exact Hcolor | exact Hdepth].
Defined.

Lemma X11_pitches_by_mip_level_witness :
  exists out1 out2,
    subresource_reply
      (@xglGetImageSubresourceInfo (sample_collaborators true) small_image
         {| mipLevel := 0; arraySlice := 0 |} XGL_INFO_TYPE_SUBRESOURCE_LAYOUT 0
         (Some {| sl_offset := 0; sl_size := 0; sl_rowPitch := 0; sl_depthPitch := 0 |})) =
      (XGL_SUCCESS, 32, Some out1) /\
    subresource_reply
      (@xglGetImageSubresourceInfo (sample_collaborators true) small_image
         {| mipLevel := 0; arraySlice := 1 |} XGL_INFO_TYPE_SUBRESOURCE_LAYOUT 0
         (Some {| sl_offset := 0; sl_size := 0; sl_rowPitch := 0; sl_depthPitch := 0 |})) =
      (XGL_SUCCESS, 32, Some out2) /\
    sl_offset out1 <> sl_offset out2 /\
    sl_rowPitch out1 = sl_rowPitch out2 /\
    sl_size out1 = sl_size out2 /\
    sl_depthPitch out1 = sl_depthPitch out2.
Proof.
  do 2 eexists.
  split; [reflexivity|]. split; [reflexivity|]. split; [discriminate|].
  match goal with |- sl_rowPitch ?o1 = sl_rowPitch ?o2 /\ _ =>
    destruct (@X11_pitches_by_mip_level (sample_collaborators true) small_image
                {| mipLevel := 0; arraySlice := 0 |} {| mipLevel := 0; arraySlice := 1 |}
                0 0
                {| sl_offset := 0; sl_size := 0; sl_rowPitch := 0; sl_depthPitch := 0 |}
                {| sl_offset := 0; sl_size := 0; sl_rowPitch := 0; sl_depthPitch := 0 |}
                o1 o2 eq_refl eq_refl) as [Hrow Hmip]
  end.
  split; [exact Hrow|]. exact (Hmip eq_refl).
Defined.

